(** * VideoMixer: a shallow embedding of the batch pipeline

    Three programs live in the sources:
    - [index.js], first half: [/upload] + [processVideos] with a
      [try/catch/finally] (called [v1] below);
    - [index.js], second half: the same pipeline without [finally]
      ([v2]);
    - [unnamed/part_000]: the synchronous [/combine] endpoint, which
      starts every ffmpeg job at once and waits on [Promise.all].

    Node's [path] module is modelled on lists of path segments, the
    file system as a map from directories to their entries, and the
    asynchronous code as a state/error monad whose state also logs the
    ffmpeg invocations, the start/end events of those invocations, the
    [fs.remove] requests and every file-system snapshot. *)

From Stdlib Require Import String Ascii.
From stdpp Require Import base gmap strings list pretty.


(* ------------------------------------------------------------------ *)
(** ** Node's [path] module (posix) *)

Module Path.

(** [s.split("/")] *)
Fixpoint split_slash_acc (cur s : string) : list string :=
  match s with
  | EmptyString => [cur]
  | String c s' =>
      if Ascii.eqb c "/"%char then cur :: split_slash_acc "" s'
      else split_slash_acc (cur +:+ String c EmptyString) s'
  end.

Definition split_slash (s : string) : list string := split_slash_acc "" s.

Fixpoint has_slash (s : string) : bool :=
  match s with
  | EmptyString => false
  | String c s' => Ascii.eqb c "/"%char || has_slash s'
  end.

(** One segment of [path.normalize]: empty and [.] segments vanish,
    [..] drops the previous segment (and stays at the root). *)
Definition norm_step (acc : list string) (seg : string) : list string :=
  if String.eqb seg "" then acc
  else if String.eqb seg "." then acc
  else if String.eqb seg ".." then removelast acc
  else acc ++ [seg].

(** [path.join(base, p1, p2, ...)] for an absolute [base], as the list
    of segments of the normalised result. *)
Definition join_from (base : list string) (parts : list string) : list string :=
  foldl norm_step base (parts ≫= split_slash).

Definition join (parts : list string) : list string := join_from [] parts.

(** [path.parse(p).base]: the last non-empty segment. *)
Definition basename (p : string) : string :=
  default "" (last (List.filter (fun x => negb (String.eqb x "")) (split_slash p))).

Fixpoint last_dot_aux (s : string) (i : nat) (acc : option nat) : option nat :=
  match s with
  | EmptyString => acc
  | String c s' => last_dot_aux s' (S i) (if Ascii.eqb c "."%char then Some i else acc)
  end.

(** [path.parse(p).name]: the base without its last extension; a base
    whose only dot is its first character, and [..], have no extension. *)
Definition parse_name (p : string) : string :=
  let b := basename p in
  match last_dot_aux b 0 None with
  | None => b
  | Some 0 => b
  | Some i => if String.eqb b ".." then b else substring 0 i b
  end.

(** A segment that [path.join] keeps as it is. *)
Definition plain_segment (s : string) : bool :=
  negb (String.eqb s "") && negb (String.eqb s ".") && negb (String.eqb s "..")
  && negb (has_slash s).

End Path.

(* ------------------------------------------------------------------ *)
(** ** Data *)

(** A multer file: [originalname] as sent by the client, [path] where
    multer stored it under [/tmp/uploads]. *)
Record UFile := { originalname : string; upath : string }.

(** The JSON objects passed to [saveStatus]. *)
Inductive StatusRec :=
| SProcessing                                          (* {status:"processing"} *)
| SDone (downloadUrl : string) (success total : nat)  (* {status:"done", ...} *)
| SError (message : string).                           (* {status:"error", message} *)

(** File contents. *)
Inductive Content :=
| CVideo (hookPath bodyPath : string)   (* a complete ffmpeg output *)
| CPartial                              (* what an interrupted ffmpeg run leaves *)
| CReport (combinations successes failures : nat)
| CStatus (r : StatusRec)               (* written by [fs.writeJsonSync] *)
| CUnparsable                           (* a file [fs.readJsonSync] cannot parse *)
| CZip (entries : gset string).         (* the names archived by [zipDirectory] *)

(** The file system: each directory (as its list of segments) with its
    entries. *)
Abbreviation FS := (gmap (list string) (gmap string Content)).

Definition fs_read (p : list string) (fs : FS) : option Content :=
  fs !! removelast p ≫= (λ d, d !! default "" (last p)).

Definition fs_write (p : list string) (c : Content) (fs : FS) : FS :=
  let d := removelast p in
  <[d := <[default "" (last p) := c]> (default ∅ (fs !! d))]> fs.

Definition fs_ensure_dir (d : list string) (fs : FS) : FS :=
  match fs !! d with Some _ => fs | None => <[d := ∅]> fs end.

(** The outcome of one ffmpeg process, as [runCommand] sees it.  On
    failure the process may have left something at the destination
    ([Some c], for instance a truncated file after the timeout kill) or
    not touched it ([None]). *)
Inductive ProcOutcome := POk | PFail (left : option Content).

(** The environment: what the external world answers.  [env_combine k]
    is the outcome of the [k]-th ffmpeg invocation; the next three fields
    say whether [fs.ensureDir(taskDir)], the report's [writeFileSync] and
    [zipDirectory] succeed.  When [zipDirectory] fails, [env_zip_crash]
    says where: in the archiver ([false]), whose ["error"] event rejects
    the promise, or in the output stream of [fs.createWriteStream]
    ([true], for instance [EACCES] or [ENOSPC]), which has no ["error"]
    listener. *)
Record Env := {
  env_combine : nat -> ProcOutcome;
  env_ensure_dir : bool;
  env_report : bool;
  env_zip : bool;
  env_zip_crash : bool;
}.

(** Start and end of one ffmpeg invocation, by invocation number. *)
Inductive Ev := EStart (k : nat) | EEnd (k : nat).

(** One ffmpeg invocation: hook path, body path, destination. *)
Record Call := { c_hook : string; c_body : string; c_out : list string }.

Record St := {
  st_fs : FS;
  st_calls : list Call;       (* every combineVideos call, in order *)
  st_events : list Ev;        (* start/end of every ffmpeg process *)
  st_removed : list string;   (* every fs.remove(f.path) request *)
  st_trace : list FS;         (* every file-system state, in order *)
}.

Definition set_fs (f : FS) (s : St) : St :=
  {| st_fs := f; st_calls := st_calls s; st_events := st_events s;
     st_removed := st_removed s; st_trace := st_trace s ++ [f] |}.

(* ------------------------------------------------------------------ *)
(** ** A state and error monad

    A computation ends with a value, with a rejected promise or thrown
    error carrying a message ([Err]), or with an uncaught exception that
    ends the Node process ([Crash]): an ["error"] event emitted with no
    listener.  Nothing runs after a crash: no [catch], no [finally], no
    response. *)

Inductive Exc := Err (msg : string) | Crash.

Definition M (A : Type) : Type := St -> (Exc + A) * St.

Definition ret {A} (a : A) : M A := λ s, (inr a, s).

Definition bind {A B} (m : M A) (k : A -> M B) : M B :=
  λ s, match m s with (inl e, s') => (inl e, s') | (inr a, s') => k a s' end.

Notation "x <-- m ;; k" := (bind m (λ x, k)) (at level 95, m at next level, right associativity).

Definition throw {A} (e : string) : M A := λ s, (inl (Err e), s).

(** The process dies. *)
Definition crash {A} : M A := λ s, (inl Crash, s).

(** [try { m } catch (e) { h(e) }] *)
Definition try_catch {A} (m : M A) (h : string -> M A) : M A :=
  λ s, match m s with
       | (inl (Err e), s') => h e s'
       | (inl Crash, s') => (inl Crash, s')
       | (inr a, s') => (inr a, s')
       end.

(** [try { m } finally { f }]: an exception of [f] replaces [m]'s result. *)
Definition try_finally {A} (m : M A) (f : M unit) : M A :=
  λ s, match m s with
       | (inl Crash, s') => (inl Crash, s')
       | (r, s') => match f s' with (inl e, s'') => (inl e, s'') | (inr _, s'') => (r, s'') end
       end.

Definition modify_fs (f : FS -> FS) : M unit := λ s, (inr tt, set_fs (f (st_fs s)) s).

Definition resultsDir : string := "/tmp/results".
Definition outputFolder : string := "/tmp/results".

(** [path.join(resultsDir, taskId, "status.json")], as in [saveStatus]
    and [getStatus]. *)
Definition status_path (taskId : string) : list string :=
  Path.join [resultsDir; taskId; "status.json"].

(** [`comb_${path.parse(hook.originalname).name}_${path.parse(body.originalname).name}.mp4`] *)
Definition output_name (h b : UFile) : string :=
  "comb_" +:+ Path.parse_name (originalname h) +:+ "_" +:+ Path.parse_name (originalname b) +:+ ".mp4".

(** [s.includes(c)] for one character. *)
Fixpoint has_char (c : ascii) (s : string) : bool :=
  match s with
  | EmptyString => false
  | String d s' => Ascii.eqb d c || has_char c s'
  end.

(** HTTP responses: status code and JSON body. *)
Inductive Body :=
| BError (error : string)                          (* {error} *)
| BAccepted (message taskId : string)              (* {message, taskId} *)
| BStatus (r : StatusRec)                          (* the stored status object *)
| BCombined (message : string) (zipPath : list string)
| BInternal (error details : string).

Inductive Response := RJson (code : nat) (body : Body).

(** [getStatus]: [null] when the file does not exist or cannot be read
    as JSON. *)
Definition parse_status (c : Content) : option StatusRec :=
  match c with CStatus r => Some r | _ => None end.

Definition getStatus (taskId : string) (fs : FS) : option StatusRec :=
  fs_read (status_path taskId) fs ≫= parse_status.

(** [app.get("/status/:taskId")] *)
Definition status_handler (taskId : string) (fs : FS) : Response :=
  match getStatus taskId fs with
  | None => RJson 404 (BError "Task not found")
  | Some r => RJson 200 (BStatus r)
  end.

Section Programs.

Variable env : Env.

(** [fs.ensureDir(dir)], awaited. *)
Definition ensure_dir (d : list string) : M unit :=
  if env_ensure_dir env then modify_fs (fs_ensure_dir d) else throw "ENOENT: ensureDir".

(** [saveStatus]: [fs.ensureDirSync] of the parent, then [fs.writeJsonSync]. *)
Definition save_fs (taskId : string) (r : StatusRec) (fs : FS) : FS :=
  fs_write (status_path taskId) (CStatus r) (fs_ensure_dir (removelast (status_path taskId)) fs).

Definition saveStatus (taskId : string) (r : StatusRec) : M unit :=
  modify_fs (save_fs taskId r).

(** [fs.writeFileSync(path.join(dir, "report.txt"), report)] *)
Definition write_report (p : list string) (c : Content) : M unit :=
  if env_report env then modify_fs (fs_write p c) else throw "EACCES: report.txt".

(** [zipDirectory(source, outPath)]: archives the entries of [source].
    Only the archiver has an ["error"] listener ([reject]); an error of
    the output stream is emitted with no listener and ends the process.
    What a failing stream leaves at [outPath] is not modelled. *)
Definition zipDirectory (source out : list string) : M unit :=
  if env_zip env then
    λ s, match st_fs s !! source with
         | Some d => modify_fs (fs_write out (CZip (dom d))) s
         | None => throw "ENOENT: archiver" s
         end
  else if env_zip_crash env then crash
  else throw "archiver error".

(** [[...hooks, ...bodies].forEach((f) => fs.remove(f.path))]: the
    removals are requested, not awaited.  Their outcome is not modelled:
    [fs.remove] ignores a missing file, and any other failure would settle
    after the rest of the request has run. *)
Definition remove_files (fs : list UFile) : M unit :=
  λ s, (inr tt, {| st_fs := st_fs s; st_calls := st_calls s; st_events := st_events s;
                   st_removed := st_removed s ++ map upath fs; st_trace := st_trace s |}).

(** [exec(ffmpegCmd)]: the process starts; its number is the number of
    processes started before it. *)
Definition launch (hp bp : string) (op : list string) : M nat :=
  λ s, let k := length (st_calls s) in
       (inr k, {| st_fs := st_fs s; st_calls := st_calls s ++ [Build_Call hp bp op];
                  st_events := st_events s ++ [EStart k];
                  st_removed := st_removed s; st_trace := st_trace s |}).

(** The process ends; [runCommand] resolves, or rejects with its output. *)
Definition settle (k : nat) (hp bp : string) (op : list string) : M unit :=
  λ s, let s1 := {| st_fs := st_fs s; st_calls := st_calls s;
                    st_events := st_events s ++ [EEnd k];
                    st_removed := st_removed s; st_trace := st_trace s |} in
       match env_combine env k with
       | POk => modify_fs (fs_write op (CVideo hp bp)) s1
       | PFail None => (inl (Err "ffmpeg error"), s1)
       | PFail (Some c) => (inl (Err "ffmpeg error"), snd (modify_fs (fs_write op c) s1))
       end.

(** [combineVideos(hookPath, bodyPath, outputPath)] = [runCommand(ffmpegCmd)]:
    one ffmpeg run writing straight to [outputPath] ([-y]). *)
Definition combineVideos (hp bp : string) (op : list string) : M unit :=
  k <-- launch hp bp op ;; settle k hp bp op.

(** The inner [for (const body of bodies)] of [processVideos] (both
    variants): [await combineVideos(...); successCount++] in a
    [try/catch] that only logs. *)
Fixpoint loop_bodies (taskDir : list string) (h : UFile) (bs : list UFile) (cnt : nat) : M nat :=
  match bs with
  | [] => ret cnt
  | b :: bs' =>
      cnt' <-- try_catch
                 (_ <-- combineVideos (upath h) (upath b) (Path.join_from taskDir [output_name h b]) ;;
                  ret (S cnt))
                 (λ _, ret cnt) ;;
      loop_bodies taskDir h bs' cnt'
  end.

Fixpoint loop_hooks (taskDir : list string) (hs bs : list UFile) (cnt : nat) : M nat :=
  match hs with
  | [] => ret cnt
  | h :: hs' => cnt' <-- loop_bodies taskDir h bs cnt ;; loop_hooks taskDir hs' bs cnt'
  end.

(** Report, zip and the [done] record, shared by both variants.  The
    report's [total - successCount] is a JS number; [successCount] never
    exceeds [total], so [nat] subtraction agrees with it. *)
Definition finish (taskId : string) (taskDir : list string) (total cnt : nat) : M unit :=
  _ <-- write_report (Path.join_from taskDir ["report.txt"]) (CReport total cnt (total - cnt)) ;;
  _ <-- zipDirectory taskDir (Path.join [resultsDir; taskId +:+ ".zip"]) ;;
  saveStatus taskId (SDone ("/results/" +:+ taskId +:+ ".zip") cnt total).

(** [processVideos], first variant of [index.js] (lines 133-185). *)
Definition processVideos_v1 (taskId : string) (hooks bodies : list UFile) : M unit :=
  let taskDir := Path.join [resultsDir; taskId] in
  _ <-- ensure_dir taskDir ;;
  try_finally
    (try_catch
       (cnt <-- loop_hooks taskDir hooks bodies 0 ;;
        finish taskId taskDir (length hooks * length bodies) cnt)
       (λ e, saveStatus taskId (SError e)))
    (remove_files (hooks ++ bodies)).

(** [processVideos], second variant of [index.js] (lines 334-378). *)
Definition processVideos_v2 (taskId : string) (hooks bodies : list UFile) : M unit :=
  let taskDir := Path.join [resultsDir; taskId] in
  _ <-- ensure_dir taskDir ;;
  cnt <-- loop_hooks taskDir hooks bodies 0 ;;
  try_catch
    (finish taskId taskDir (length hooks * length bodies) cnt)
    (λ e, saveStatus taskId (SError e)).

(** [app.post("/upload")] of either variant, for the task identifier
    [taskId] that [uuidv4()] returns.  The handler is synchronous: it
    returns the response, the state when the response is sent, and the
    detached [processVideos(...).catch(...)] promise, which the event
    loop runs afterwards. *)
Definition upload (processVideos : string -> list UFile -> list UFile -> M unit)
    (taskId : string) (hooks bodies : list UFile) (s : St) : Response * St * M unit :=
  if Nat.eqb (length hooks) 0 || Nat.eqb (length bodies) 0 then
    (RJson 400 (BError "Send at least 1 hook and 1 body video."), s, ret tt)
  else
    let s1 := snd (saveStatus taskId SProcessing s) in
    (RJson 202 (BAccepted "Upload received" taskId), s1,
     try_catch (processVideos taskId hooks bodies) (λ e, saveStatus taskId (SError e))).

(** A submission followed by its detached processing. *)
Definition run_task (processVideos : string -> list UFile -> list UFile -> M unit)
    (taskId : string) (hooks bodies : list UFile) (s : St) : Response * St :=
  match upload processVideos taskId hooks bodies s with
  | (r, s1, job) => (r, snd (job s1))
  end.

(** [part_000]: the jobs of the [/combine] loop.  [combineVideos] starts
    its process synchronously, so every process is started in the loop,
    before any of them settles. *)
Fixpoint launch_bodies (runDir : list string) (h : UFile) (bs : list UFile)
    : M (list (nat * string * string * list string)) :=
  match bs with
  | [] => ret []
  | b :: bs' =>
      let op := Path.join_from runDir [output_name h b] in
      k <-- launch (upath h) (upath b) op ;;
      js <-- launch_bodies runDir h bs' ;;
      ret ((k, upath h, upath b, op) :: js)
  end.

Fixpoint launch_hooks (runDir : list string) (hs bs : list UFile)
    : M (list (nat * string * string * list string)) :=
  match hs with
  | [] => ret []
  | h :: hs' =>
      js <-- launch_bodies runDir h bs ;;
      js' <-- launch_hooks runDir hs' bs ;;
      ret (js ++ js')%list
  end.

(** [await Promise.all(jobs)], each job [.then(() => successCount++)]
    [.catch(log)].  The jobs settle here in launch order, one of the
    orders the event loop allows. *)
Fixpoint settle_all (jobs : list (nat * string * string * list string)) (cnt : nat) : M nat :=
  match jobs with
  | [] => ret cnt
  | (k, hp, bp, op) :: js =>
      cnt' <-- try_catch (_ <-- settle k hp bp op ;; ret (S cnt)) (λ _, ret cnt) ;;
      settle_all js cnt'
  end.

(** [app.post("/combine")] of [part_000], for the [timestamp] it
    computes.  One request is run on its own: two requests in the same
    second share the run folder [outputFolder/timestamp] and the archive
    path, and their interleaving is not modelled. *)
Definition combine_handler (timestamp : string) (hooks bodies : list UFile) : M Response :=
  try_catch
    (if Nat.eqb (length hooks) 0 || Nat.eqb (length bodies) 0 then
       ret (RJson 400 (BError "Please upload both hook and body videos"))
     else
       let runDir := Path.join [outputFolder; timestamp] in
       _ <-- ensure_dir runDir ;;
       jobs <-- launch_hooks runDir hooks bodies ;;
       cnt <-- settle_all jobs 0 ;;
       let total := length hooks * length bodies in
       _ <-- write_report (Path.join_from runDir ["report.txt"]) (CReport total cnt (total - cnt)) ;;
       let zipPath := Path.join [outputFolder; "videos_" +:+ timestamp +:+ ".zip"] in
       _ <-- zipDirectory runDir zipPath ;;
       _ <-- remove_files (hooks ++ bodies) ;;
       ret (RJson 200 (BCombined "Videos processed!" zipPath)))
    (λ e, ret (RJson 500 (BInternal "Internal error" e))).

End Programs.

(** Most simultaneously running ffmpeg processes along an event log. *)
Fixpoint peak_from (cur mx : nat) (evs : list Ev) : nat :=
  match evs with
  | [] => mx
  | EStart _ :: r => peak_from (S cur) (max mx (S cur)) r
  | EEnd _ :: r => peak_from (pred cur) mx r
  end.

Definition peak (evs : list Ev) : nat := peak_from 0 0 evs.

(** The server's state at start-up: [/tmp/uploads] and [/tmp/results]
    exist and are empty. *)
Definition init_fs : FS := <[Path.join ["/tmp/uploads"] := ∅]> (<[Path.join [resultsDir] := ∅]> ∅).

Definition init_st : St :=
  {| st_fs := init_fs; st_calls := []; st_events := []; st_removed := []; st_trace := [] |}.


(** The ffmpeg invocations the nested loops of [processVideos] make,
    hook-major. *)
Definition jobs (taskDir : list string) (hs bs : list UFile) : list Call :=
  hs ≫= (λ h, map (λ b, Build_Call (upath h) (upath b) (Path.join_from taskDir [output_name h b])) bs).

(** The calls of one pass of the inner loop. *)
Definition body_calls (td : list string) (h : UFile) (bs : list UFile) : list Call :=
  map (λ b, Build_Call (upath h) (upath b) (Path.join_from td [output_name h b])) bs.

(** A property of states that a computation keeps, whatever its result. *)
Definition holds {A} (P : St -> Prop) (m : M A) : Prop := ∀ s, P s -> P (snd (m s)).

(** The event log of a state extends [l]. *)
Definition ev_ext (l : list Ev) (s : St) : Prop := ∃ r, st_events s = l ++ r.

(** Every result [m] returns satisfies [R]. *)
Definition returns {A} (R : A -> Prop) (m : M A) : Prop :=
  ∀ s, match fst (m s) with inr a => R a | inl _ => True end.

(** The events of one awaited ffmpeg run. *)
Definition ev_pair (k : nat) : list Ev := [EStart k; EEnd k].

(** What the [k]-th ffmpeg run leaves in the file system. *)
Definition job_effect (o : ProcOutcome) (c : Call) (fs : FS) : FS :=
  match o with
  | POk => fs_write (c_out c) (CVideo (c_hook c) (c_body c)) fs
  | PFail None => fs
  | PFail (Some x) => fs_write (c_out c) x fs
  end.

Fixpoint apply_jobs (env : Env) (n : nat) (cs : list Call) (fs : FS) : FS :=
  match cs with
  | [] => fs
  | c :: cs' => apply_jobs env (S n) cs' (job_effect (env_combine env n) c fs)
  end.

(** How many of the runs [n .. n+len-1] succeed. *)
Fixpoint count_ok (env : Env) (n len : nat) : nat :=
  match len with
  | 0 => 0
  | S len' => (match env_combine env n with POk => 1 | _ => 0 end) + count_ok env (S n) len'
  end.

(** A property of file systems that every write of [processVideos]
    other than [saveStatus] keeps. *)
Definition nonsave_ok (u : string) (hs bs : list UFile) (Q : FS -> Prop) : Prop :=
  let td := Path.join [resultsDir; u] in
  (∀ fs, Q fs -> Q (fs_ensure_dir td fs)) ∧
  (∀ h b c fs, h ∈ hs -> b ∈ bs -> Q fs -> Q (fs_write (Path.join_from td [output_name h b]) c fs)) ∧
  (∀ c fs, Q fs -> Q (fs_write (Path.join_from td ["report.txt"]) c fs)) ∧
  (∀ c fs, Q fs -> Q (fs_write (Path.join [resultsDir; u +:+ ".zip"]) c fs)).

(** A property [Q] of every file-system state seen so far. *)
Definition fs_inv (Q : FS -> Prop) (s : St) : Prop := Q (st_fs s) ∧ Forall Q (st_trace s).

(** The two [processVideos] of [index.js]. *)
Definition task_variants (env : Env) : list (string -> list UFile -> list UFile -> M unit) :=
  [processVideos_v1 env; processVideos_v2 env].

(** The output stream of the task's archive fails once the folder and
    the report are made: the process ends inside [zipDirectory]. *)
Definition zip_crashes (env : Env) : bool :=
  env_ensure_dir env && env_report env && negb (env_zip env) && env_zip_crash env.

(** The state after a request. *)
Definition st_of (r : Response * St) : St := snd r.

(** The job tuples [part_000] collects: each started process with its
    paths, numbered from [n]. *)
Definition job_tuples (n : nat) (cs : list Call) : list (nat * string * string * list string) :=
  zip_with (λ k c, (k, c_hook c, c_body c, c_out c)) (seq n (length cs)) cs.

(** [uploadsDir] of [index.js]. *)
Definition uploadsDir : string := "/tmp/uploads".

(** The [filename] callback of multer's [diskStorage]:
    [`${Date.now()}_${file.originalname}`], [Date.now()] being a number
    of milliseconds printed in decimal. *)
Definition multer_filename (now : N) (originalname : string) : string :=
  pretty now +:+ "_" +:+ originalname.

(** Where multer's disk storage puts the file: [path.join(uploadsDir, filename)]. *)
Definition stored_path (now : N) (originalname : string) : list string :=
  Path.join [uploadsDir; multer_filename now originalname].

(** Test inputs. *)
Definition uf (n : string) : UFile := {| originalname := n; upath := "/tmp/uploads/1_" +:+ n |}.

Definition env_all (o : ProcOutcome) : Env :=
  {| env_combine := λ _, o; env_ensure_dir := true; env_report := true; env_zip := true; env_zip_crash := false |}.

Example parse_name_ex1 : Path.parse_name "clips/a.mp4" = "a".
Proof. reflexivity. Qed.
Example parse_name_ex2 : Path.parse_name ".bashrc" = ".bashrc".
Proof. reflexivity. Qed.
Example join_ex : Path.join [resultsDir; "x/../u1"; "status.json"] = ["tmp"; "results"; "u1"; "status.json"].
Proof. reflexivity. Qed.
Example run_ex :
  getStatus "u1" (st_fs (snd (run_task (processVideos_v1 (env_all POk)) "u1" [uf "h.mp4"; uf "g.mp4"] [uf "b.mp4"] init_st)))
  = Some (SDone "/results/u1.zip" 2 2).
Proof. vm_compute. reflexivity. Qed.

(* ------------------------------------------------------------------ *)
(** ** Facts about paths *)

Module PathFacts.
Import Path.

Lemma str_app_cons (x : ascii) (a b : string) : String x a +:+ b = String x (a +:+ b).
Proof. reflexivity. Qed.

Lemma str_app_nil (b : string) : "" +:+ b = b.
Proof. reflexivity. Qed.

Lemma str_app_assoc (a b c : string) : (a +:+ b) +:+ c = a +:+ (b +:+ c).
Proof. induction a as [|x a IH]; [reflexivity|]. rewrite !str_app_cons. f_equal. exact IH. Qed.

Lemma has_slash_app (a b : string) : has_slash (a +:+ b) = has_slash a || has_slash b.
Proof.
  induction a as [|x a IH]; [reflexivity|].
  rewrite str_app_cons. simpl. now rewrite IH, orb_assoc.
Qed.

Lemma split_slash_acc_noslash (s cur : string) :
  has_slash s = false -> split_slash_acc cur s = [cur +:+ s].
Proof.
  revert cur; induction s as [|c s IH]; intros cur Hs; simpl in *.
  - induction cur as [|x cur IHc]; [reflexivity|].
    rewrite str_app_cons. f_equal. f_equal. now injection IHc.
  - apply orb_false_iff in Hs as [Hc Hs]. rewrite Hc. cbn iota.
    rewrite (IH _ Hs). now rewrite str_app_assoc.
Qed.

Lemma split_slash_acc_segments (s cur : string) :
  has_slash cur = false -> Forall (λ x, has_slash x = false) (split_slash_acc cur s).
Proof.
  revert cur; induction s as [|c s IH]; intros cur Hcur; simpl.
  - now constructor.
  - destruct (Ascii.eqb c "/"%char) eqn:Ec.
    + constructor; [exact Hcur | apply IH; reflexivity].
    + apply IH. rewrite has_slash_app, Hcur. simpl. now rewrite Ec.
Qed.

Lemma basename_noslash (p : string) : has_slash (basename p) = false.
Proof.
  unfold basename.
  destruct (last _) as [x|] eqn:E; simpl; [|reflexivity].
  apply last_Some_elem_of in E.
  apply list_elem_of_In, filter_In in E as [E _]. apply list_elem_of_In in E.
  pose proof (split_slash_acc_segments p "" eq_refl) as HF.
  rewrite Forall_forall in HF. exact (HF x E).
Qed.

Lemma substring_noslash (s : string) (n m : nat) :
  has_slash s = false -> has_slash (substring n m s) = false.
Proof.
  revert n m; induction s as [|c s IH]; intros n m Hs; simpl in *.
  - destruct n, m; reflexivity.
  - apply orb_false_iff in Hs as [Hc Hs].
    destruct n as [|n], m as [|m]; simpl; try reflexivity.
    + rewrite Hc. apply IH, Hs.
    + apply IH, Hs.
    + apply IH, Hs.
Qed.

Lemma parse_name_noslash (p : string) : has_slash (parse_name p) = false.
Proof.
  unfold parse_name.
  destruct (last_dot_aux _ _ _) as [[|i]|]; try apply basename_noslash.
  destruct (String.eqb _ _); [apply basename_noslash|].
  apply substring_noslash, basename_noslash.
Qed.

Lemma join_from_plain (d : list string) (n : string) :
  plain_segment n = true -> join_from d [n] = (d ++ [n])%list.
Proof.
  unfold plain_segment, join_from. intros Hp.
  apply andb_prop in Hp as [Hp Hs]. apply andb_prop in Hp as [Hp H2].
  apply andb_prop in Hp as [H0 H1]. apply negb_true_iff in H0, H1, H2, Hs.
  simpl. unfold split_slash. rewrite split_slash_acc_noslash by exact Hs.
  rewrite str_app_nil. simpl. unfold norm_step. now rewrite H0, H1, H2.
Qed.

Lemma join_from_app (d : list string) (ps qs : list string) :
  join_from d (ps ++ qs)%list = join_from (join_from d ps) qs.
Proof. unfold join_from. now rewrite bind_app, foldl_app. Qed.

Lemma join_from_cons (d : list string) (p : string) (ps : list string) :
  join_from d (p :: ps) = join_from (join_from d [p]) ps.
Proof. apply (join_from_app d [p] ps). Qed.

Lemma app_zip_long (u : string) :
  ∃ a b c r, u +:+ ".zip" = String a (String b (String c r)).
Proof. destruct u as [|a [|b [|c u]]]; eexists _, _, _, _; reflexivity. Qed.

Lemma plain_app_zip (u : string) :
  plain_segment u = true -> plain_segment (u +:+ ".zip") = true.
Proof.
  unfold plain_segment. intros Hp.
  apply andb_prop in Hp as [_ Hs]. apply negb_true_iff in Hs.
  rewrite has_slash_app, Hs.
  destruct (app_zip_long u) as (a & b & c & r & ->). simpl.
  now destruct (Ascii.eqb a "."%char), (Ascii.eqb b "."%char).
Qed.

Lemma output_name_plain (h b : UFile) : plain_segment (output_name h b) = true.
Proof.
  unfold plain_segment, output_name.
  rewrite !has_slash_app, !parse_name_noslash. reflexivity.
Qed.

Lemma results_dir_join (u : string) :
  plain_segment u = true -> join [resultsDir; u] = ["tmp"; "results"; u].
Proof.
  intros Hu. unfold join. rewrite join_from_cons.
  change (join_from [] [resultsDir]) with ["tmp"; "results"].
  now rewrite join_from_plain.
Qed.

Lemma results_file_join (u n : string) :
  plain_segment u = true -> plain_segment n = true ->
  join [resultsDir; u; n] = ["tmp"; "results"; u; n].
Proof.
  intros Hu Hn. unfold join. rewrite join_from_cons.
  change (join_from [] [resultsDir]) with ["tmp"; "results"].
  rewrite join_from_cons, !join_from_plain by assumption. reflexivity.
Qed.

End PathFacts.

(* ------------------------------------------------------------------ *)
(** ** Invariants through the monad *)

Module Invariants.


Lemma holds_ret {A} (P : St -> Prop) (a : A) : holds P (ret a).
Proof. intros s Hs. exact Hs. Qed.

Lemma holds_throw {A} (P : St -> Prop) (e : string) : holds P (@throw A e).
Proof. intros s Hs. exact Hs. Qed.

Lemma holds_crash {A} (P : St -> Prop) : holds P (@crash A).
Proof. intros s Hs. exact Hs. Qed.

Lemma holds_bind {A B} (P : St -> Prop) (m : M A) (k : A -> M B) :
  holds P m -> (∀ a, holds P (k a)) -> holds P (bind m k).
Proof.
  intros Hm Hk s Hs. unfold bind. specialize (Hm s Hs).
  destruct (m s) as [[e|a] s']; simpl in *; [exact Hm | apply Hk, Hm].
Qed.

Lemma holds_try_catch {A} (P : St -> Prop) (m : M A) (h : string -> M A) :
  holds P m -> (∀ e, holds P (h e)) -> holds P (try_catch m h).
Proof.
  intros Hm Hh s Hs. unfold try_catch. specialize (Hm s Hs).
  destruct (m s) as [[[e|]|a] s']; simpl in *; [apply Hh, Hm | exact Hm | exact Hm].
Qed.

Lemma holds_try_finally {A} (P : St -> Prop) (m : M A) (f : M unit) :
  holds P m -> holds P f -> holds P (try_finally m f).
Proof.
  intros Hm Hf s Hs. unfold try_finally. specialize (Hm s Hs).
  destruct (m s) as [r s']. specialize (Hf s' Hm).
  destruct r as [[e|]|a]; [| exact Hm |]; destruct (f s') as [[e'|u] s'']; exact Hf.
Qed.

Lemma holds_modify_fs (Q : FS -> Prop) (f : FS -> FS) :
  (∀ fs, Q fs -> Q (f fs)) -> holds (fs_inv Q) (modify_fs f).
Proof.
  intros Hf s [Hs Ht]. unfold modify_fs; simpl. split.
  - now apply Hf.
  - apply Forall_app; split; [exact Ht | constructor; [now apply Hf | constructor]].
Qed.

Create HintDb holds.
#[export] Hint Resolve holds_ret holds_throw holds_crash holds_bind holds_try_catch holds_try_finally : holds.

Section WithEnv.
Variable env : Env.

Lemma ensure_dir_fs_inv (Q : FS -> Prop) (d : list string) :
  (∀ fs, Q fs -> Q (fs_ensure_dir d fs)) -> holds (fs_inv Q) (ensure_dir env d).
Proof. intros H. unfold ensure_dir. destruct (env_ensure_dir env); auto using holds_modify_fs, holds_throw. Qed.

Lemma saveStatus_fs_inv (Q : FS -> Prop) (u : string) (r : StatusRec) :
  (∀ fs, Q fs -> Q (fs_write (status_path u) (CStatus r) (fs_ensure_dir (removelast (status_path u)) fs))) ->
  holds (fs_inv Q) (saveStatus u r).
Proof. intros H. now apply holds_modify_fs. Qed.

Lemma write_report_fs_inv (Q : FS -> Prop) (p : list string) (c : Content) :
  (∀ fs, Q fs -> Q (fs_write p c fs)) -> holds (fs_inv Q) (write_report env p c).
Proof. intros H. unfold write_report. destruct (env_report env); auto using holds_modify_fs, holds_throw. Qed.

Lemma zipDirectory_fs_inv (Q : FS -> Prop) (src out : list string) :
  (∀ fs c, Q fs -> Q (fs_write out c fs)) -> holds (fs_inv Q) (zipDirectory env src out).
Proof.
  intros H. unfold zipDirectory. destruct (env_zip env); [|destruct (env_zip_crash env); auto with holds].
  intros s Hs. destruct (st_fs s !! src); [|exact Hs].
  exact (holds_modify_fs Q _ (λ fs Hq, H fs _ Hq) s Hs).
Qed.

Lemma remove_files_fs_inv (Q : FS -> Prop) (fs : list UFile) : holds (fs_inv Q) (remove_files fs).
Proof. intros s Hs. exact Hs. Qed.

(** One ffmpeg invocation, all at once. *)
Lemma combineVideos_run (hp bp : string) (op : list string) (s : St) :
  combineVideos env hp bp op s =
  let k := length (st_calls s) in
  let s1 := {| st_fs := st_fs s; st_calls := st_calls s ++ [Build_Call hp bp op];
               st_events := st_events s ++ [EStart k; EEnd k];
               st_removed := st_removed s; st_trace := st_trace s |} in
  match env_combine env k with
  | POk => (inr tt, set_fs (fs_write op (CVideo hp bp) (st_fs s)) s1)
  | PFail None => (inl (Err "ffmpeg error"), s1)
  | PFail (Some c) => (inl (Err "ffmpeg error"), set_fs (fs_write op c (st_fs s)) s1)
  end.
Proof.
  unfold combineVideos, bind, launch, settle, modify_fs; simpl.
  rewrite <- app_assoc. simpl.
  destruct (env_combine env (length (st_calls s))) as [|[c|]]; reflexivity.
Qed.

Lemma combineVideos_fs_inv (Q : FS -> Prop) (hp bp : string) (op : list string) :
  (∀ fs c, Q fs -> Q (fs_write op c fs)) -> holds (fs_inv Q) (combineVideos env hp bp op).
Proof.
  intros H s [Hs Ht]. rewrite combineVideos_run. simpl.
  destruct (env_combine env _) as [|[c|]]; unfold fs_inv, set_fs; simpl;
    (split; [auto|]); try exact Ht; apply Forall_app; split; auto.
Qed.

Lemma loop_bodies_fs_inv (Q : FS -> Prop) td h bs cnt :
  (∀ b fs c, b ∈ bs -> Q fs -> Q (fs_write (Path.join_from td [output_name h b]) c fs)) ->
  holds (fs_inv Q) (loop_bodies env td h bs cnt).
Proof.
  revert cnt; induction bs as [|b bs IH]; intros cnt H; simpl; [apply holds_ret|].
  apply holds_bind.
  - apply holds_try_catch; [|intros; apply holds_ret].
    apply holds_bind; [|intros; apply holds_ret].
    apply combineVideos_fs_inv. intros fs c Hq. apply H; [left | exact Hq].
  - intros a. apply IH. intros b' fs c Hb. apply H. now right.
Qed.

Lemma loop_hooks_fs_inv (Q : FS -> Prop) td hs bs cnt :
  (∀ h b fs c, h ∈ hs -> b ∈ bs -> Q fs -> Q (fs_write (Path.join_from td [output_name h b]) c fs)) ->
  holds (fs_inv Q) (loop_hooks env td hs bs cnt).
Proof.
  revert cnt; induction hs as [|h hs IH]; intros cnt H; simpl; [apply holds_ret|].
  apply holds_bind.
  - apply loop_bodies_fs_inv. intros b fs c Hb. apply H; [left | exact Hb].
  - intros a. apply IH. intros h' b fs c Hh. apply H. now right.
Qed.

End WithEnv.
End Invariants.

(* ------------------------------------------------------------------ *)
(** ** The nested loops of [processVideos] *)


Module Loops.

Section WithEnv.
Variable env : Env.

Lemma count_ok_le n len : count_ok env n len ≤ len.
Proof. revert n; induction len as [|len IH]; intros n; simpl; [lia|]. specialize (IH (S n)). destruct (env_combine env n); lia. Qed.

Lemma count_ok_all n len : (∀ k, env_combine env k = POk) -> count_ok env n len = len.
Proof. intros H. revert n; induction len as [|len IH]; intros n; simpl; [reflexivity|]. rewrite H, IH. reflexivity. Qed.

Lemma count_ok_none n len : (∀ k, env_combine env k ≠ POk) -> count_ok env n len = 0.
Proof.
  intros H. revert n; induction len as [|len IH]; intros n; simpl; [reflexivity|].
  rewrite IH. destruct (env_combine env n) eqn:E; [now destruct (H n)|reflexivity].
Qed.

Lemma count_ok_add n a b : count_ok env n (a + b) = count_ok env n a + count_ok env (n + a) b.
Proof.
  revert n; induction a as [|a IH]; intros n; simpl; [now rewrite Nat.add_0_r|].
  rewrite IH. replace (S n + a) with (n + S a) by lia. lia.
Qed.

Lemma apply_jobs_app n cs cs' fs :
  apply_jobs env n (cs ++ cs') fs = apply_jobs env (n + length cs) cs' (apply_jobs env n cs fs).
Proof.
  revert n fs; induction cs as [|c cs IH]; intros n fs; simpl; [now rewrite Nat.add_0_r|].
  rewrite IH. now replace (S n + length cs) with (n + S (length cs)) by lia.
Qed.

Lemma loop_bodies_run td h bs cnt s :
  ∃ tr, loop_bodies env td h bs cnt s =
    (inr (cnt + count_ok env (length (st_calls s)) (length bs)),
     {| st_fs := apply_jobs env (length (st_calls s)) (body_calls td h bs) (st_fs s);
        st_calls := st_calls s ++ body_calls td h bs;
        st_events := st_events s ++ (seq (length (st_calls s)) (length bs) ≫= ev_pair);
        st_removed := st_removed s;
        st_trace := tr |}).
Proof.
  revert cnt s; induction bs as [|b bs IH]; intros cnt s.
  - exists (st_trace s). simpl. rewrite Nat.add_0_r, !app_nil_r. now destruct s.
  - simpl loop_bodies. unfold bind, try_catch. rewrite Invariants.combineVideos_run.
    cbv zeta.
    destruct (env_combine env (length (st_calls s))) as [|[c|]] eqn:E; simpl;
      match goal with |- context [loop_bodies env td h bs ?c ?s'] => destruct (IH c s') as [tr ->] end;
      exists tr; simpl; rewrite ?E; rewrite ?length_app; simpl;
      rewrite <- ?app_assoc, ?Nat.add_1_r; simpl; try reflexivity;
      f_equal; f_equal; lia.
Qed.

Lemma loop_hooks_run td hs bs cnt s :
  ∃ tr, loop_hooks env td hs bs cnt s =
    (inr (cnt + count_ok env (length (st_calls s)) (length hs * length bs)),
     {| st_fs := apply_jobs env (length (st_calls s)) (jobs td hs bs) (st_fs s);
        st_calls := st_calls s ++ jobs td hs bs;
        st_events := st_events s ++ (seq (length (st_calls s)) (length hs * length bs) ≫= ev_pair);
        st_removed := st_removed s;
        st_trace := tr |}).
Proof.
  revert cnt s; induction hs as [|h hs IH]; intros cnt s.
  - exists (st_trace s). simpl. rewrite Nat.add_0_r, !app_nil_r. now destruct s.
  - simpl loop_hooks. unfold bind at 1.
    destruct (loop_bodies_run td h bs cnt s) as [tr1 ->].
    match goal with |- context [loop_hooks env td hs bs ?c ?s'] => destruct (IH c s') as [tr ->] end.
    exists tr. simpl. unfold jobs. simpl. fold (jobs td hs bs). fold (body_calls td h bs).
    assert (Hl : length (body_calls td h bs) = length bs) by apply length_map.
    rewrite length_app, count_ok_add, apply_jobs_app, Hl, seq_app, bind_app, <- !app_assoc, Nat.add_assoc.
    reflexivity.
Qed.

End WithEnv.
End Loops.

(* ------------------------------------------------------------------ *)
(** ** Whole runs of [processVideos] *)

Module Runs.

Lemma getStatus_save_fs (u : string) (r : StatusRec) (fs : FS) :
  getStatus u (save_fs u r fs) = Some r.
Proof.
  unfold getStatus, save_fs, fs_read, fs_write. cbv zeta.
  rewrite lookup_insert_eq. cbn [mbind option_bind]. now rewrite lookup_insert_eq.
Qed.

Lemma fs_write_dir_is_Some (p d : list string) (c : Content) (fs : FS) :
  is_Some (fs !! d) -> is_Some (fs_write p c fs !! d).
Proof.
  intros H. unfold fs_write. destruct (decide (removelast p = d)) as [<-|Hne].
  - rewrite lookup_insert_eq. eauto.
  - now rewrite lookup_insert_ne.
Qed.

Lemma fs_ensure_dir_is_Some (d : list string) (fs : FS) : is_Some (fs_ensure_dir d fs !! d).
Proof. unfold fs_ensure_dir. destruct (fs !! d) eqn:E; [eauto|]. rewrite lookup_insert_eq. eauto. Qed.

Lemma apply_jobs_dir_is_Some (env : Env) (n : nat) (cs : list Call) (fs : FS) (d : list string) :
  is_Some (fs !! d) -> is_Some (apply_jobs env n cs fs !! d).
Proof.
  revert n fs; induction cs as [|c cs IH]; intros n fs H; simpl; [exact H|].
  apply IH. unfold job_effect. destruct (env_combine env n) as [|[x|]]; auto using fs_write_dir_is_Some.
Qed.

Section WithEnv.
Variable env : Env.

Lemma v1_job_run u hs bs s :
  zip_crashes env = false ->
  let td := Path.join [resultsDir; u] in
  let n := length (st_calls s) in
  let T := length hs * length bs in
  let s' := snd (try_catch (processVideos_v1 env u hs bs) (λ e, saveStatus u (SError e)) s) in
  ∃ sX r,
    st_fs s' = save_fs u r (st_fs sX) ∧
    st_trace s' = st_trace sX ++ [st_fs s'] ∧
    (∀ Q, nonsave_ok u hs bs Q -> fs_inv Q s -> fs_inv Q sX) ∧
    ((env_ensure_dir env = false ∧ r = SError "ENOENT: ensureDir" ∧ sX = s ∧
      st_removed s' = st_removed s ∧ st_calls s' = st_calls s ∧ st_events s' = st_events s)
     ∨ (env_ensure_dir env = true ∧
        st_removed s' = st_removed s ++ map upath (hs ++ bs) ∧
        st_calls s' = st_calls s ++ jobs td hs bs ∧
        st_events s' = st_events s ++ (seq n T ≫= ev_pair) ∧
        ((∃ e, r = SError e) ∨ r = SDone ("/results/" +:+ u +:+ ".zip") (count_ok env n T) T) ∧
        (env_report env = true -> env_zip env = true ->
           let F := fs_write (Path.join_from td ["report.txt"])
                      (CReport T (count_ok env n T) (T - count_ok env n T))
                      (apply_jobs env n (jobs td hs bs) (fs_ensure_dir td (st_fs s))) in
           ∃ d, F !! td = Some d ∧ r = SDone ("/results/" +:+ u +:+ ".zip") (count_ok env n T) T ∧
                st_fs sX = fs_write (Path.join [resultsDir; u +:+ ".zip"]) (CZip (dom d)) F))).
Proof.
  intros Hnc td n T s'. subst s'.
  destruct (try_catch _ _ s) as [res sf] eqn:Hj. simpl.
  unfold processVideos_v1 in Hj. fold td in Hj.
  unfold try_catch at 1, bind at 1, ensure_dir in Hj.
  destruct (env_ensure_dir env) eqn:Ed.
  2:{ injection Hj as <- <-. exists s, (SError "ENOENT: ensureDir"). simpl.
      split; [reflexivity|]. split; [reflexivity|]. split; [auto|]. left. repeat split. }
  unfold modify_fs at 1 in Hj.
  set (s1 := set_fs (fs_ensure_dir td (st_fs s)) s) in Hj.
  destruct (Loops.loop_hooks_run env td hs bs 0 s1) as [tr Hl].
  unfold try_finally, try_catch, bind at 1 in Hj. rewrite Hl in Hj.
  unfold finish, bind, write_report in Hj.
  change (length (st_calls s1)) with n in Hj. rewrite Nat.add_0_l in Hj. fold T in Hj.
  set (s2 := Build_St _ _ _ _ tr) in Hj.
  assert (HQ2 : ∀ Q, nonsave_ok u hs bs Q -> fs_inv Q s -> fs_inv Q s2).
  { intros Q (H1 & H2 & H3 & H4) HQ.
    pose proof (Invariants.holds_modify_fs Q _ H1 s HQ) as HQ1.
    pose proof (Invariants.loop_hooks_fs_inv env Q td hs bs 0 (λ h b fs c Hh Hb Hq, H2 h b c fs Hh Hb Hq) s1 HQ1) as HQ2.
    rewrite Hl in HQ2. exact HQ2. }
  destruct (env_report env) eqn:Er.
  2:{ unfold throw, saveStatus, remove_files, modify_fs in Hj. cbv beta iota zeta in Hj.
      injection Hj as <- <-. exists s2, (SError "EACCES: report.txt").
      split; [reflexivity|]. split; [reflexivity|]. split; [exact HQ2|]. right.
      repeat split; [now left; eexists|discriminate]. }
  unfold modify_fs at 1 in Hj. unfold zipDirectory in Hj.
  destruct (env_zip env) eqn:Ez.
  2:{ destruct (env_zip_crash env) eqn:Ec.
      { unfold zip_crashes in Hnc. rewrite Ed, Er, Ez, Ec in Hnc. discriminate. }
      unfold throw, saveStatus, remove_files, modify_fs in Hj. cbv beta iota zeta in Hj.
      injection Hj as <- <-.
      set (F := fs_write (Path.join_from td ["report.txt"]) (CReport T (count_ok env n T) (T - count_ok env n T)) (st_fs s2)).
      exists (set_fs F s2), (SError "archiver error").
      split; [reflexivity|]. split; [reflexivity|].
      split.
      - intros Q Hn HQ. pose proof (HQ2 Q Hn HQ) as HQ2'. destruct Hn as (_ & _ & H3 & _).
        exact (Invariants.holds_modify_fs Q _ (H3 _) s2 HQ2').
      - right. repeat split; [now left; eexists|discriminate]. }
  set (F := fs_write (Path.join_from td ["report.txt"]) (CReport T (count_ok env n T) (T - count_ok env n T)) (st_fs s2)) in Hj.
  cbn [st_fs set_fs] in Hj.
  destruct (F !! td) as [d|] eqn:Hd.
  2:{ exfalso. assert (HS : is_Some (F !! td)).
      { apply fs_write_dir_is_Some, apply_jobs_dir_is_Some, fs_ensure_dir_is_Some. }
      rewrite Hd in HS. now destruct HS. }
  unfold saveStatus, remove_files, modify_fs in Hj. cbv beta iota zeta in Hj.
  injection Hj as <- <-.
  exists (set_fs (fs_write (Path.join [resultsDir; u +:+ ".zip"]) (CZip (dom d)) F) (set_fs F s2)),
    (SDone ("/results/" +:+ u +:+ ".zip") (count_ok env n T) T).
  split; [reflexivity|]. split; [reflexivity|].
  split.
  - intros Q Hn HQ. pose proof (HQ2 Q Hn HQ) as HQ2'. destruct Hn as (_ & _ & H3 & H4).
    exact (Invariants.holds_modify_fs Q _ (H4 _) (set_fs F s2)
             (Invariants.holds_modify_fs Q _ (H3 _) s2 HQ2')).
  - right. repeat split; [now right|]. intros _ _. exists d. split; [exact Hd|]. split; reflexivity.
Qed.

Lemma v2_job_run u hs bs s :
  zip_crashes env = false ->
  let td := Path.join [resultsDir; u] in
  let n := length (st_calls s) in
  let T := length hs * length bs in
  let s' := snd (try_catch (processVideos_v2 env u hs bs) (λ e, saveStatus u (SError e)) s) in
  ∃ sX r,
    st_fs s' = save_fs u r (st_fs sX) ∧
    st_removed s' = st_removed s ∧
    st_calls s' = st_calls s ++ (if env_ensure_dir env then jobs td hs bs else []) ∧
    st_events s' = st_events s ++ (if env_ensure_dir env then seq n T ≫= ev_pair else []) ∧
    ((∃ e, r = SError e) ∨ r = SDone ("/results/" +:+ u +:+ ".zip") (count_ok env n T) T) ∧
    (env_ensure_dir env = true -> env_report env = true -> env_zip env = true ->
       let F := fs_write (Path.join_from td ["report.txt"])
                  (CReport T (count_ok env n T) (T - count_ok env n T))
                  (apply_jobs env n (jobs td hs bs) (fs_ensure_dir td (st_fs s))) in
       ∃ d, F !! td = Some d ∧ r = SDone ("/results/" +:+ u +:+ ".zip") (count_ok env n T) T ∧
            st_fs sX = fs_write (Path.join [resultsDir; u +:+ ".zip"]) (CZip (dom d)) F).
Proof.
  intros Hnc td n T s'. subst s'.
  destruct (try_catch _ _ s) as [res sf] eqn:Hj. simpl.
  unfold processVideos_v2 in Hj. fold td in Hj.
  unfold try_catch at 1, bind at 1, ensure_dir in Hj.
  destruct (env_ensure_dir env) eqn:Ed.
  2:{ injection Hj as <- <-. exists s, (SError "ENOENT: ensureDir"). simpl.
      rewrite !app_nil_r. repeat split; [now left; eexists|discriminate]. }
  unfold modify_fs at 1 in Hj.
  set (s1 := set_fs (fs_ensure_dir td (st_fs s)) s) in Hj.
  destruct (Loops.loop_hooks_run env td hs bs 0 s1) as [tr Hl].
  unfold bind at 1 in Hj. rewrite Hl in Hj.
  unfold try_catch, finish, bind, write_report in Hj.
  change (length (st_calls s1)) with n in Hj. rewrite Nat.add_0_l in Hj. fold T in Hj.
  set (s2 := Build_St _ _ _ _ tr) in Hj.
  destruct (env_report env) eqn:Er.
  2:{ unfold throw, saveStatus, modify_fs in Hj. cbv beta iota zeta in Hj.
      injection Hj as <- <-. exists s2, (SError "EACCES: report.txt").
      repeat split; [now left; eexists|discriminate]. }
  unfold modify_fs at 1 in Hj. unfold zipDirectory in Hj.
  set (F := fs_write (Path.join_from td ["report.txt"]) (CReport T (count_ok env n T) (T - count_ok env n T)) (st_fs s2)) in Hj.
  destruct (env_zip env) eqn:Ez.
  2:{ destruct (env_zip_crash env) eqn:Ec.
      { unfold zip_crashes in Hnc. rewrite Ed, Er, Ez, Ec in Hnc. discriminate. }
      unfold throw, saveStatus, modify_fs in Hj. cbv beta iota zeta in Hj.
      injection Hj as <- <-. exists (set_fs F s2), (SError "archiver error").
      repeat split; [now left; eexists|discriminate]. }
  cbn [st_fs set_fs] in Hj.
  destruct (F !! td) as [d|] eqn:Hd.
  2:{ exfalso. assert (HS : is_Some (F !! td)).
      { apply fs_write_dir_is_Some, apply_jobs_dir_is_Some, fs_ensure_dir_is_Some. }
      rewrite Hd in HS. now destruct HS. }
  unfold saveStatus, modify_fs in Hj. cbv beta iota zeta in Hj.
  injection Hj as <- <-.
  exists (set_fs (fs_write (Path.join [resultsDir; u +:+ ".zip"]) (CZip (dom d)) F) (set_fs F s2)),
    (SDone ("/results/" +:+ u +:+ ".zip") (count_ok env n T) T).
  repeat split; [now right|]. intros _ _ _. exists d. split; [exact Hd|]. split; reflexivity.
Qed.

Lemma zip_crashes_ensure : zip_crashes env = true -> env_ensure_dir env = true.
Proof. unfold zip_crashes. destruct (env_ensure_dir env); [reflexivity | discriminate]. Qed.

Lemma zip_crashes_zip : env_zip env = true -> zip_crashes env = false.
Proof. intros Ez. unfold zip_crashes. now rewrite Ez, andb_false_r. Qed.

(** When the archive's output stream fails, the task of either variant
    ends inside [zipDirectory]: the report is the last write, no status
    is saved after [processing], and no removal is requested. *)
Lemma task_crash_run pv u hs bs s :
  pv = processVideos_v1 env ∨ pv = processVideos_v2 env -> zip_crashes env = true ->
  let td := Path.join [resultsDir; u] in
  let n := length (st_calls s) in
  let T := length hs * length bs in
  let c := count_ok env n T in
  let F := fs_write (Path.join_from td ["report.txt"]) (CReport T c (T - c))
             (apply_jobs env n (jobs td hs bs) (fs_ensure_dir td (st_fs s))) in
  let r := try_catch (pv u hs bs) (λ e, saveStatus u (SError e)) s in
  fst r = inl Crash ∧ st_fs (snd r) = F ∧ st_removed (snd r) = st_removed s ∧
  st_calls (snd r) = st_calls s ++ jobs td hs bs ∧
  st_events (snd r) = st_events s ++ (seq n T ≫= ev_pair) ∧
  (∃ tr, st_trace (snd r) = tr ++ [st_fs (snd r)]) ∧
  (∀ Q, nonsave_ok u hs bs Q -> fs_inv Q s -> fs_inv Q (snd r)).
Proof.
  intros Hpv Hc td n T c F r. subst r.
  unfold zip_crashes in Hc.
  destruct (env_ensure_dir env) eqn:Ed, (env_report env) eqn:Er, (env_zip env) eqn:Ez,
    (env_zip_crash env) eqn:Ec; try discriminate Hc.
  set (s1 := set_fs (fs_ensure_dir td (st_fs s)) s).
  destruct (Loops.loop_hooks_run env td hs bs 0 s1) as [tr Hl].
  set (s2 := Build_St (apply_jobs env (length (st_calls s1)) (jobs td hs bs) (st_fs s1))
                      (st_calls s1 ++ jobs td hs bs)
                      (st_events s1 ++ (seq (length (st_calls s1)) (length hs * length bs) ≫= ev_pair))
                      (st_removed s1) tr) in Hl.
  assert (HQ2 : ∀ Q, nonsave_ok u hs bs Q -> fs_inv Q s -> fs_inv Q (set_fs F s2)).
  { intros Q (H1 & H2 & H3 & H4) HQ.
    pose proof (Invariants.holds_modify_fs Q _ H1 s HQ) as HQ1.
    pose proof (Invariants.loop_hooks_fs_inv env Q td hs bs 0 (λ h b fs c Hh Hb Hq, H2 h b c fs Hh Hb Hq) s1 HQ1) as HQ2.
    rewrite Hl in HQ2. exact (Invariants.holds_modify_fs Q _ (H3 _) s2 HQ2). }
  destruct (try_catch _ _ s) as [res sf] eqn:Hj. cbn [fst snd].
  destruct Hpv as [-> | ->].
  - unfold processVideos_v1 in Hj. fold td in Hj.
    unfold try_catch at 1, bind at 1, ensure_dir in Hj. rewrite Ed in Hj.
    unfold modify_fs at 1 in Hj. fold s1 in Hj.
    unfold try_finally, try_catch, bind at 1 in Hj. rewrite Hl in Hj.
    unfold finish, bind, write_report in Hj. rewrite Er in Hj.
    change (length (st_calls s1)) with n in Hj. rewrite Nat.add_0_l in Hj. fold T c in Hj.
    unfold modify_fs at 1 in Hj. unfold zipDirectory in Hj. rewrite Ez, Ec in Hj.
    unfold crash in Hj. cbv beta iota zeta in Hj. injection Hj as <- <-.
    do 5 (split; [reflexivity|]). split; [eexists; reflexivity | exact HQ2].
  - unfold processVideos_v2 in Hj. fold td in Hj.
    unfold try_catch at 1, bind at 1, ensure_dir in Hj. rewrite Ed in Hj.
    unfold modify_fs at 1 in Hj. fold s1 in Hj.
    unfold bind at 1 in Hj. rewrite Hl in Hj.
    unfold try_catch, finish, bind, write_report in Hj. rewrite Er in Hj.
    change (length (st_calls s1)) with n in Hj. rewrite Nat.add_0_l in Hj. fold T c in Hj.
    unfold modify_fs at 1 in Hj. unfold zipDirectory in Hj. rewrite Ez, Ec in Hj.
    unfold crash in Hj. cbv beta iota zeta in Hj. injection Hj as <- <-.
    do 5 (split; [reflexivity|]). split; [eexists; reflexivity | exact HQ2].
Qed.

(** An accepted submission: the status is saved as [processing], the
    response goes out, and the detached processing runs. *)
Lemma run_task_accepted pv u hs bs s :
  hs ≠ [] -> bs ≠ [] ->
  run_task pv u hs bs s =
    (RJson 202 (BAccepted "Upload received" u),
     snd (try_catch (pv u hs bs) (λ e, saveStatus u (SError e)) (set_fs (save_fs u SProcessing (st_fs s)) s))).
Proof. intros Hh Hb. destruct hs; [congruence|]. destruct bs; [congruence|]. reflexivity. Qed.

End WithEnv.
End Runs.

(* ------------------------------------------------------------------ *)
(** ** The [/combine] handler of [part_000] *)

Module Combine.

Lemma launch_bodies_run rd h bs s :
  ∃ js, launch_bodies rd h bs s =
    (inr js, {| st_fs := st_fs s; st_calls := st_calls s ++ body_calls rd h bs;
                st_events := st_events s ++ map EStart (seq (length (st_calls s)) (length bs));
                st_removed := st_removed s; st_trace := st_trace s |}).
Proof.
  revert s; induction bs as [|b bs IH]; intros s.
  - exists []. simpl. rewrite !app_nil_r. now destruct s.
  - cbn [launch_bodies]. unfold bind at 1, launch at 1. cbv zeta. cbn [fst snd].
    unfold bind at 1.
    match goal with |- context [launch_bodies rd h bs ?s1] => destruct (IH s1) as [js ->] end.
    eexists. unfold bind, ret. cbn. f_equal. f_equal.
    + now rewrite <- app_assoc.
    + rewrite <- app_assoc, length_app. simpl. now rewrite Nat.add_1_r.
Qed.

Lemma launch_hooks_run rd hs bs s :
  ∃ js, launch_hooks rd hs bs s =
    (inr js, {| st_fs := st_fs s; st_calls := st_calls s ++ jobs rd hs bs;
                st_events := st_events s ++ map EStart (seq (length (st_calls s)) (length hs * length bs));
                st_removed := st_removed s; st_trace := st_trace s |}).
Proof.
  revert s; induction hs as [|h hs IH]; intros s.
  - exists []. simpl. rewrite !app_nil_r. now destruct s.
  - cbn [launch_hooks]. unfold bind at 1.
    destruct (launch_bodies_run rd h bs s) as [js ->].
    unfold bind at 1.
    match goal with |- context [launch_hooks rd hs bs ?s1] => destruct (IH s1) as [js' ->] end.
    eexists. unfold ret. cbn. f_equal. f_equal.
    + rewrite <- app_assoc. reflexivity.
    + rewrite <- app_assoc, length_app, seq_app, map_app. unfold body_calls. now rewrite length_map.
Qed.

Lemma settle_all_inr env js cnt s : ∃ c s', settle_all env js cnt s = (inr c, s').
Proof.
  revert cnt s; induction js as [|[[[k hp] bp] op] js IH]; intros cnt s.
  - simpl. eauto.
  - cbn [settle_all]. unfold bind at 1, try_catch at 1, bind at 1, settle. cbv zeta.
    destruct (env_combine env k) as [|[c|]]; simpl; apply IH.
Qed.

Lemma ev_ext_modify_fs l f : holds (ev_ext l) (modify_fs f).
Proof. intros s Hs. exact Hs. Qed.

Lemma ev_ext_settle env l k hp bp op : holds (ev_ext l) (settle env k hp bp op).
Proof.
  intros s [r Hr]. unfold settle. cbv zeta.
  destruct (env_combine env k) as [|[c|]]; simpl; exists (r ++ [EEnd k]); now rewrite Hr, app_assoc.
Qed.

Lemma ev_ext_settle_all env l js cnt : holds (ev_ext l) (settle_all env js cnt).
Proof.
  revert cnt; induction js as [|[[[k hp] bp] op] js IH]; intros cnt; simpl; [apply Invariants.holds_ret|].
  apply Invariants.holds_bind; [|intros; apply IH].
  apply Invariants.holds_try_catch; [|intros; apply Invariants.holds_ret].
  apply Invariants.holds_bind; [apply ev_ext_settle | intros; apply Invariants.holds_ret].
Qed.

Lemma ev_ext_write_report env l p c : holds (ev_ext l) (write_report env p c).
Proof. unfold write_report. destruct (env_report env); [apply ev_ext_modify_fs | apply Invariants.holds_throw]. Qed.

Lemma ev_ext_zipDirectory env l src out : holds (ev_ext l) (zipDirectory env src out).
Proof.
  unfold zipDirectory. destruct (env_zip env);
    [|destruct (env_zip_crash env); [apply Invariants.holds_crash | apply Invariants.holds_throw]].
  intros s Hs. destruct (st_fs s !! src); [apply ev_ext_modify_fs|]; exact Hs.
Qed.

Lemma ev_ext_remove_files l fs : holds (ev_ext l) (remove_files fs).
Proof. intros s Hs. exact Hs. Qed.

Lemma returns_ret {A} (R : A -> Prop) (a : A) : R a -> returns R (ret a).
Proof. intros H s. exact H. Qed.

Lemma returns_bind {A B} (R : B -> Prop) (m : M A) (k : A -> M B) :
  (∀ a, returns R (k a)) -> returns R (bind m k).
Proof. intros H s. unfold bind. destruct (m s) as [[e|a] s']; [exact I | apply H]. Qed.

Lemma combine_handler_events env ts hs bs s :
  hs ≠ [] -> bs ≠ [] -> env_ensure_dir env = true ->
  ev_ext (st_events s ++ map EStart (seq (length (st_calls s)) (length hs * length bs)))
         (snd (combine_handler env ts hs bs s)).
Proof.
  intros Hh Hb Ed. unfold combine_handler.
  assert (Hc : Nat.eqb (length hs) 0 || Nat.eqb (length bs) 0 = false).
  { destruct hs, bs; simpl; congruence. }
  rewrite Hc. unfold try_catch at 1, bind at 1, ensure_dir. rewrite Ed.
  unfold modify_fs at 1. cbn [fst snd].
  unfold bind at 1.
  match goal with |- context [launch_hooks ?rd hs bs ?s1] => destruct (launch_hooks_run rd hs bs s1) as [js ->] end.
  cbn [fst snd].
  set (L := st_events s ++ _).
  match goal with |- context [bind (settle_all env js 0) ?k ?s2] =>
    assert (H : holds (ev_ext L) (bind (settle_all env js 0) k)) end.
  { apply Invariants.holds_bind; [apply ev_ext_settle_all|]. intros cnt.
    apply Invariants.holds_bind; [apply ev_ext_write_report|]. intros _.
    apply Invariants.holds_bind; [apply ev_ext_zipDirectory|]. intros _.
    apply Invariants.holds_bind; [apply ev_ext_remove_files|]. intros _.
    apply Invariants.holds_ret. }
  match goal with |- context [bind (settle_all env js 0) ?k ?s2] =>
    specialize (H s2 (ex_intro _ [] (eq_sym (app_nil_r _)))); destruct (bind (settle_all env js 0) k s2) as [[[e|]|a] s3] end;
  exact H.
Qed.

Lemma combine_handler_responses env ts hs bs s :
  (∃ r, fst (combine_handler env ts hs bs s) = inr r ∧
    (r = RJson 400 (BError "Please upload both hook and body videos") ∨
     (∃ z, r = RJson 200 (BCombined "Videos processed!" z)) ∨
     (∃ e, r = RJson 500 (BInternal "Internal error" e)))) ∨
  fst (combine_handler env ts hs bs s) = inl Crash.
Proof.
  set (R := λ r : Response, r = RJson 400 (BError "Please upload both hook and body videos") ∨
     (∃ z, r = RJson 200 (BCombined "Videos processed!" z)) ∨
     (∃ e, r = RJson 500 (BInternal "Internal error" e))).
  unfold combine_handler, try_catch.
  match goal with |- context [match ?m s with _ => _ end] =>
    assert (H : returns R m) end.
  { destruct (_ || _).
    - apply returns_ret. now left.
    - repeat (apply returns_bind; intros ?). apply returns_ret. right; left. eauto. }
  specialize (H s).
  match goal with |- context [match ?m s with _ => _ end] => destruct (m s) as [[[e|]|a] s'] end;
    simpl in *; [left | right; reflexivity | left]; eexists; (split; [reflexivity|]).
  - right; right. eauto.
  - exact H.
Qed.

End Combine.

(* ------------------------------------------------------------------ *)
(** ** Peaks of event logs *)

Module Peak.

Lemma peak_from_ge cur mx evs : mx ≤ peak_from cur mx evs.
Proof.
  revert cur mx; induction evs as [|[k|k] evs IH]; intros cur mx; simpl; [lia| |].
  - specialize (IH (S cur) (max mx (S cur))). lia.
  - apply IH.
Qed.

Lemma peak_from_app cur mx l r : peak_from cur mx l ≤ peak_from cur mx (l ++ r).
Proof.
  revert cur mx; induction l as [|[k|k] l IH]; intros cur mx; simpl; [apply peak_from_ge| |]; apply IH.
Qed.

Lemma peak_from_starts cur mx ks :
  cur ≤ mx -> peak_from cur mx (map EStart ks) = max mx (cur + length ks).
Proof. revert cur mx; induction ks as [|k ks IH]; intros cur mx Hc; simpl; [lia|]. rewrite IH; lia. Qed.

Lemma peak_from_pairs mx n T : mx ≤ 1 -> peak_from 0 mx (seq n T ≫= ev_pair) ≤ 1.
Proof. revert n mx; induction T as [|T IH]; intros n mx Hm; simpl; [exact Hm|]. apply IH. lia. Qed.

End Peak.

(* ------------------------------------------------------------------ *)
(** ** Strings *)

Module StrFacts.
Import PathFacts.

Lemma str_length_app (a b : string) : String.length (a +:+ b) = String.length a + String.length b.
Proof. induction a as [|x a IH]; [reflexivity|]. rewrite str_app_cons. simpl. now rewrite IH. Qed.

Lemma str_app_inj_r (a b c : string) : a +:+ c = b +:+ c -> a = b.
Proof.
  revert b; induction a as [|x a IH]; intros b H; destruct b as [|y b].
  - reflexivity.
  - exfalso. apply (f_equal String.length) in H. rewrite str_app_nil, str_app_cons in H. simpl in H.
    rewrite str_length_app in H. lia.
  - exfalso. apply (f_equal String.length) in H. rewrite str_app_nil, str_app_cons in H. simpl in H.
    rewrite str_length_app in H. lia.
  - rewrite !str_app_cons in H. injection H as -> H. f_equal. now apply IH.
Qed.

Lemma app_underscore_inj (a a' x y : string) :
  has_char "_" a = false -> has_char "_" a' = false ->
  a +:+ String "_" x = a' +:+ String "_" y -> a = a' ∧ x = y.
Proof.
  revert a'; induction a as [|c a IH]; intros a' Ha Ha' H; destruct a' as [|c' a'].
  - rewrite !str_app_nil in H. now injection H as ->.
  - rewrite str_app_nil, str_app_cons in H. injection H as <- _. discriminate Ha'.
  - rewrite str_app_nil, str_app_cons in H. injection H as -> _. discriminate Ha.
  - rewrite !str_app_cons in H. injection H as <- H.
    simpl in Ha, Ha'. apply orb_false_iff in Ha as [_ Ha], Ha' as [_ Ha'].
    destruct (IH a' Ha Ha' H) as [-> ->]. split; reflexivity.
Qed.

End StrFacts.

(* ------------------------------------------------------------------ *)
(** ** The task folder and the archive *)

Module Archive.
Import Path PathFacts.

Lemma status_path_plain u : plain_segment u = true -> status_path u = ["tmp"; "results"; u; "status.json"].
Proof. intros Hu. apply results_file_join; [exact Hu | reflexivity]. Qed.

Lemma save_fs_fresh u r fs :
  plain_segment u = true -> fs !! ["tmp"; "results"; u] = None ->
  save_fs u r fs !! ["tmp"; "results"; u] = Some {["status.json" := CStatus r]}.
Proof.
  intros Hu Hn. unfold save_fs. rewrite status_path_plain by exact Hu.
  unfold fs_write, fs_ensure_dir. simpl. rewrite Hn, lookup_insert_eq. simpl.
  rewrite lookup_insert_eq. reflexivity.
Qed.

Lemma save_fs_other u r fs k :
  plain_segment u = true -> k ≠ ["tmp"; "results"; u] -> save_fs u r fs !! k = fs !! k.
Proof.
  intros Hu Hk. unfold save_fs. rewrite status_path_plain by exact Hu.
  unfold fs_write, fs_ensure_dir. simpl. rewrite lookup_insert_ne by congruence.
  destruct (fs !! _); [reflexivity|]. rewrite lookup_insert_ne by congruence. reflexivity.
Qed.

Lemma apply_jobs_all_ok env n cs fs td d :
  (∀ k, env_combine env k = POk) -> Forall (λ c, removelast (c_out c) = td) cs -> fs !! td = Some d ->
  ∃ d', apply_jobs env n cs fs !! td = Some d' ∧
        dom d' = dom d ∪ list_to_set (map (λ c, default "" (last (c_out c))) cs).
Proof.
  intros Hok. revert n fs d. induction cs as [|c cs IH]; intros n fs d Hf Hd; simpl.
  - exists d. split; [exact Hd|]. now rewrite union_empty_r_L.
  - apply Forall_cons in Hf as [Hc Hf']. rewrite Hok. unfold job_effect.
    destruct (IH (S n) (fs_write (c_out c) (CVideo (c_hook c) (c_body c)) fs)
                (<[default "" (last (c_out c)) := CVideo (c_hook c) (c_body c)]> d) Hf') as (d' & H1 & H2).
    { unfold fs_write. rewrite Hc, lookup_insert_eq, Hd. reflexivity. }
    exists d'. split; [exact H1|]. rewrite H2, dom_insert_L. set_solver.
Qed.

Lemma jobs_dir td hs bs : Forall (λ c, removelast (c_out c) = td) (jobs td hs bs).
Proof.
  apply Forall_forall. intros c Hc. unfold jobs in Hc.
  apply list_elem_of_bind in Hc as (h & Hc & _).
  apply list_elem_of_In, in_map_iff in Hc as (b & <- & _). simpl.
  rewrite join_from_plain by apply output_name_plain. apply removelast_last.
Qed.

(** The names the output files get. *)
Lemma jobs_names td hs bs :
  map (λ c, default "" (last (c_out c))) (jobs td hs bs) = hs ≫= (λ h, map (output_name h) bs).
Proof.
  induction hs as [|h hs IH]; [reflexivity|].
  change (jobs td (h :: hs) bs) with (body_calls td h bs ++ jobs td hs bs).
  change ((h :: hs) ≫= (λ h, map (output_name h) bs)) with (map (output_name h) bs ++ hs ≫= (λ h, map (output_name h) bs)).
  rewrite map_app, IH. f_equal. unfold body_calls. rewrite map_map. apply map_ext. intros b. simpl.
  rewrite join_from_plain by apply output_name_plain. now rewrite last_snoc.
Qed.

Lemma names_length hs bs : length (hs ≫= (λ h, map (output_name h) bs)) = length hs * length bs.
Proof.
  induction hs as [|h hs IH]; [reflexivity|].
  change ((h :: hs) ≫= (λ h, map (output_name h) bs)) with (map (output_name h) bs ++ hs ≫= (λ h, map (output_name h) bs)).
  rewrite length_app, length_map, IH. reflexivity.
Qed.

Lemma names_special hs bs x :
  x ∈ hs ≫= (λ h, map (output_name h) bs) -> x ≠ "status.json" ∧ x ≠ "report.txt".
Proof.
  intros Hx. apply list_elem_of_bind in Hx as (h & Hx & _).
  apply list_elem_of_In, in_map_iff in Hx as (b & <- & _).
  unfold output_name. rewrite !str_app_cons. split; discriminate.
Qed.

(** What the task folder holds when the archive is made, when every run
    succeeds and the folder did not exist before the submission. *)
Lemma task_dir_entries env n u hs bs fs0 c d :
  plain_segment u = true -> fs0 !! Path.join [resultsDir; u] = None -> (∀ k, env_combine env k = POk) ->
  let td := Path.join [resultsDir; u] in
  fs_write (Path.join_from td ["report.txt"]) c
    (apply_jobs env n (jobs td hs bs) (fs_ensure_dir td (save_fs u SProcessing fs0))) !! td = Some d ->
  dom d = {["status.json"]} ∪ {["report.txt"]} ∪ list_to_set (hs ≫= (λ h, map (output_name h) bs)).
Proof.
  intros Hu Hn Hok td. subst td. rewrite results_dir_join in * by exact Hu.
  pose proof (save_fs_fresh u SProcessing fs0 Hu Hn) as Hs.
  unfold fs_ensure_dir at 1. rewrite Hs.
  destruct (apply_jobs_all_ok env n (jobs ["tmp"; "results"; u] hs bs) _ _ _ Hok
              (jobs_dir _ hs bs) Hs) as (d1 & H1 & H2).
  rewrite jobs_names in H2.
  rewrite join_from_plain by reflexivity. unfold fs_write. rewrite removelast_last, last_snoc, lookup_insert_eq, H1.
  simpl. intros Hd. injection Hd as <-. rewrite dom_insert_L, H2, dom_singleton_L. set_solver.
Qed.

Lemma zip_read u r z F :
  plain_segment u = true ->
  fs_read (Path.join [resultsDir; u +:+ ".zip"]) (save_fs u r (fs_write (Path.join [resultsDir; u +:+ ".zip"]) z F))
  = Some z.
Proof.
  intros Hu. rewrite results_dir_join by (apply plain_app_zip; exact Hu).
  unfold fs_read. simpl. rewrite save_fs_other by (exact Hu || congruence).
  unfold fs_write. simpl. rewrite lookup_insert_eq. simpl. now rewrite lookup_insert_eq.
Qed.

End Archive.

(* ------------------------------------------------------------------ *)
(** ** Reads and writes of the status file *)

Module FsFacts.

Lemma fs_read_write_eq p c fs : fs_read p (fs_write p c fs) = Some c.
Proof.
  unfold fs_read, fs_write. cbv zeta. rewrite lookup_insert_eq. cbn [mbind option_bind].
  now rewrite lookup_insert_eq.
Qed.

Lemma fs_read_write_ne p q c fs :
  (removelast q, default "" (last q)) ≠ (removelast p, default "" (last p)) ->
  fs_read q (fs_write p c fs) = fs_read q fs.
Proof.
  intros Hne. unfold fs_read, fs_write. cbv zeta.
  destruct (decide (removelast q = removelast p)) as [E|E].
  - rewrite E, lookup_insert_eq. cbn [mbind option_bind].
    rewrite lookup_insert_ne by (intros Hk; apply Hne; now rewrite E, Hk).
    destruct (fs !! removelast p); cbn [mbind option_bind default]; [reflexivity | apply lookup_empty].
  - now rewrite lookup_insert_ne by congruence.
Qed.

Lemma fs_read_ensure q d fs : fs_read q (fs_ensure_dir d fs) = fs_read q fs.
Proof.
  unfold fs_ensure_dir. destruct (fs !! d) eqn:E; [reflexivity|].
  unfold fs_read. destruct (decide (removelast q = d)) as [<-|Hne].
  - rewrite lookup_insert_eq, E. cbn [mbind option_bind]. apply lookup_empty.
  - now rewrite lookup_insert_ne by congruence.
Qed.

Lemma status_path_snoc q : status_path q = Path.join [resultsDir; q] ++ ["status.json"].
Proof.
  unfold status_path, Path.join.
  change [resultsDir; q; "status.json"] with ([resultsDir; q] ++ ["status.json"]).
  rewrite PathFacts.join_from_app. apply PathFacts.join_from_plain. reflexivity.
Qed.

Lemma getStatus_ensure u d fs : getStatus u (fs_ensure_dir d fs) = getStatus u fs.
Proof. unfold getStatus. now rewrite fs_read_ensure. Qed.

Lemma getStatus_write_other u p c fs :
  removelast p ≠ Path.join [resultsDir; u] ∨ default "" (last p) ≠ "status.json" ->
  getStatus u (fs_write p c fs) = getStatus u fs.
Proof.
  intros H. unfold getStatus. rewrite fs_read_write_ne; [reflexivity|].
  rewrite status_path_snoc, removelast_last, last_snoc. intros E. injection E as E1 E2.
  destruct H; congruence.
Qed.

Lemma getStatus_save_other q u r fs :
  Path.join [resultsDir; q] ≠ Path.join [resultsDir; u] ->
  getStatus q (save_fs u r fs) = getStatus q fs.
Proof.
  intros H. unfold save_fs. rewrite getStatus_write_other, getStatus_ensure; [reflexivity|].
  left. now rewrite status_path_snoc, removelast_last.
Qed.

(** Every write of [processVideos] but [saveStatus] leaves the status of
    its own task alone. *)
Lemma nonsave_status u hs bs x :
  Path.plain_segment u = true -> nonsave_ok u hs bs (λ fs, getStatus u fs = x).
Proof.
  intros Hu. repeat split.
  - intros fs H. now rewrite getStatus_ensure.
  - intros h b c fs _ _ H. rewrite getStatus_write_other; [exact H|].
    right. rewrite PathFacts.join_from_plain by apply PathFacts.output_name_plain.
    rewrite last_snoc. unfold output_name. rewrite !PathFacts.str_app_cons. discriminate.
  - intros c fs H. rewrite getStatus_write_other; [exact H|].
    right. rewrite PathFacts.join_from_plain by reflexivity. rewrite last_snoc. discriminate.
  - intros c fs H. rewrite getStatus_write_other; [exact H|].
    left. rewrite !PathFacts.results_dir_join by (exact Hu || now apply PathFacts.plain_app_zip).
    discriminate.
Qed.

Lemma getStatus_apply_jobs env u n cs fs :
  Forall (λ c, default "" (last (c_out c)) ≠ "status.json") cs ->
  getStatus u (apply_jobs env n cs fs) = getStatus u fs.
Proof.
  revert n fs; induction cs as [|c cs IH]; intros n fs Hf; [reflexivity|].
  apply Forall_cons in Hf as [Hc Hf]. simpl. rewrite IH by exact Hf.
  unfold job_effect. destruct (env_combine env n) as [|[x|]]; try reflexivity;
    apply getStatus_write_other; right; exact Hc.
Qed.

Lemma jobs_not_status td hs bs : Forall (λ c, default "" (last (c_out c)) ≠ "status.json") (jobs td hs bs).
Proof.
  apply Forall_forall. intros c Hc. apply (Archive.names_special hs bs).
  rewrite <- (Archive.jobs_names td hs bs). apply list_elem_of_In.
  apply (in_map (λ c, default "" (last (c_out c)))), list_elem_of_In, Hc.
Qed.

(** The runs and the report of a task leave every status alone. *)
Lemma getStatus_task_report env u td c n hs bs fs :
  getStatus u (fs_write (Path.join_from td ["report.txt"]) c (apply_jobs env n (jobs td hs bs) (fs_ensure_dir td fs)))
  = getStatus u fs.
Proof.
  rewrite getStatus_write_other.
  - rewrite getStatus_apply_jobs by apply jobs_not_status. apply getStatus_ensure.
  - right. rewrite PathFacts.join_from_plain by reflexivity. rewrite last_snoc. discriminate.
Qed.

End FsFacts.

(* ------------------------------------------------------------------ *)
(** ** Whole runs of [/combine] *)

Module CombineRun.

Lemma job_tuples_cons n c cs :
  job_tuples n (c :: cs) = (n, c_hook c, c_body c, c_out c) :: job_tuples (S n) cs.
Proof. reflexivity. Qed.

Lemma job_tuples_app n cs cs' :
  job_tuples n (cs ++ cs') = job_tuples n cs ++ job_tuples (n + length cs) cs'.
Proof.
  unfold job_tuples. rewrite length_app, seq_app, zip_with_app; [reflexivity|].
  now rewrite length_seq.
Qed.

Lemma launch_bodies_jobs rd h bs s :
  launch_bodies rd h bs s =
    (inr (job_tuples (length (st_calls s)) (body_calls rd h bs)),
     {| st_fs := st_fs s; st_calls := st_calls s ++ body_calls rd h bs;
        st_events := st_events s ++ map EStart (seq (length (st_calls s)) (length bs));
        st_removed := st_removed s; st_trace := st_trace s |}).
Proof.
  revert s; induction bs as [|b bs IH]; intros s.
  - simpl. rewrite !app_nil_r. now destruct s.
  - cbn [launch_bodies]. unfold bind at 1, launch at 1. cbv zeta. cbn [fst snd].
    unfold bind at 1. rewrite IH. unfold ret. cbn.
    rewrite length_app, Nat.add_1_r, <- !app_assoc. reflexivity.
Qed.

Lemma launch_hooks_jobs rd hs bs s :
  launch_hooks rd hs bs s =
    (inr (job_tuples (length (st_calls s)) (jobs rd hs bs)),
     {| st_fs := st_fs s; st_calls := st_calls s ++ jobs rd hs bs;
        st_events := st_events s ++ map EStart (seq (length (st_calls s)) (length hs * length bs));
        st_removed := st_removed s; st_trace := st_trace s |}).
Proof.
  revert s; induction hs as [|h hs IH]; intros s.
  - simpl. rewrite !app_nil_r. now destruct s.
  - cbn [launch_hooks]. unfold bind at 1. rewrite launch_bodies_jobs.
    unfold bind at 1. rewrite IH. unfold ret. cbn [fst snd st_calls st_events st_fs st_removed st_trace].
    change (jobs rd (h :: hs) bs) with (body_calls rd h bs ++ jobs rd hs bs).
    assert (Hl : length (body_calls rd h bs) = length bs) by apply length_map.
    change (length (h :: hs) * length bs) with (length bs + length hs * length bs).
    rewrite job_tuples_app, !length_app, Hl, seq_app, map_app, <- !app_assoc.
    reflexivity.
Qed.

Lemma settle_all_run env n cs cnt s :
  ∃ tr, settle_all env (job_tuples n cs) cnt s =
    (inr (cnt + count_ok env n (length cs)),
     {| st_fs := apply_jobs env n cs (st_fs s); st_calls := st_calls s;
        st_events := st_events s ++ map EEnd (seq n (length cs));
        st_removed := st_removed s; st_trace := tr |}).
Proof.
  revert n cnt s; induction cs as [|c cs IH]; intros n cnt s.
  - exists (st_trace s). simpl. rewrite Nat.add_0_r, app_nil_r. now destruct s.
  - rewrite job_tuples_cons. cbn [settle_all]. unfold bind at 1, try_catch at 1, bind at 1, settle.
    cbv zeta.
    destruct (env_combine env n) as [|[x|]] eqn:E; simpl;
      match goal with |- context [settle_all env _ ?c ?s'] => destruct (IH (S n) c s') as [tr ->] end;
      exists tr; simpl; rewrite ?E; simpl; rewrite <- ?app_assoc; simpl; try reflexivity;
      f_equal; f_equal; lia.
Qed.


Lemma combine_run env ts hs bs s :
  hs ≠ [] -> bs ≠ [] -> env_ensure_dir env = true ->
  let rd := Path.join [outputFolder; ts] in
  let n := length (st_calls s) in
  let T := length hs * length bs in
  let c := count_ok env n T in
  let zp := Path.join [outputFolder; "videos_" +:+ ts +:+ ".zip"] in
  let F := fs_write (Path.join_from rd ["report.txt"]) (CReport T c (T - c))
             (apply_jobs env n (jobs rd hs bs) (fs_ensure_dir rd (st_fs s))) in
  let res := combine_handler env ts hs bs s in
  st_calls (snd res) = st_calls s ++ jobs rd hs bs ∧
  st_events (snd res) = st_events s ++ map EStart (seq n T) ++ map EEnd (seq n T) ∧
  (env_report env = true -> env_zip env = true ->
     fst res = inr (RJson 200 (BCombined "Videos processed!" zp)) ∧
     st_removed (snd res) = st_removed s ++ map upath (hs ++ bs) ∧
     ∃ d, F !! rd = Some d ∧ st_fs (snd res) = fs_write zp (CZip (dom d)) F) ∧
  (env_report env = true -> env_zip env = false -> st_fs (snd res) = F) ∧
  (env_report env && env_zip env = false ->
     st_removed (snd res) = st_removed s ∧
     (zip_crashes env = true -> fst res = inl Crash) ∧
     (zip_crashes env = false -> ∃ e, fst res = inr (RJson 500 (BInternal "Internal error" e)))).
Proof.
  intros Hh Hb Ed rd n T c zp F res. subst res.
  destruct (combine_handler env ts hs bs s) as [r s'] eqn:Hj. cbn [fst snd].
  unfold combine_handler in Hj.
  assert (Hc : Nat.eqb (length hs) 0 || Nat.eqb (length bs) 0 = false).
  { destruct hs, bs; simpl; congruence. }
  rewrite Hc in Hj. fold rd zp in Hj. unfold try_catch at 1, bind at 1, ensure_dir in Hj. rewrite Ed in Hj.
  unfold modify_fs at 1 in Hj. cbn [fst snd] in Hj.
  unfold bind at 1 in Hj. rewrite launch_hooks_jobs in Hj. cbn [st_calls set_fs] in Hj. fold n in Hj.
  unfold bind at 1 in Hj.
  match type of Hj with context [settle_all env _ 0 ?s2] =>
    destruct (settle_all_run env n (jobs rd hs bs) 0 s2) as [tr Hs]; rewrite Hs in Hj end.
  assert (Hl : length (jobs rd hs bs) = T).
  { unfold T. rewrite <- Archive.names_length, <- (Archive.jobs_names rd hs bs). symmetry. apply length_map. }
  rewrite Hl, Nat.add_0_l in Hj. fold T in Hj. fold c in Hj.
  cbn [st_fs st_calls st_events st_removed set_fs] in Hj.
  unfold bind at 1, write_report in Hj.
  destruct (env_report env) eqn:Er.
  2:{ unfold throw in Hj. injection Hj as <- <-. cbn.
      assert (Hz : zip_crashes env = false) by (unfold zip_crashes; now rewrite Er, andb_false_r).
      rewrite <- !app_assoc. repeat split; try discriminate; try congruence. eauto. }
  unfold modify_fs at 1 in Hj. cbn [fst snd set_fs st_fs] in Hj. fold F in Hj.
  unfold bind at 1, zipDirectory in Hj.
  destruct (env_zip env) eqn:Ez.
  2:{ assert (Hz : zip_crashes env = env_zip_crash env) by (unfold zip_crashes; now rewrite Ed, Er, Ez).
      destruct (env_zip_crash env) eqn:Ec.
      - unfold crash in Hj. injection Hj as <- <-. cbn.
        rewrite <- !app_assoc. repeat split; try discriminate; try congruence.
      - unfold throw in Hj. injection Hj as <- <-. cbn.
        rewrite <- !app_assoc. repeat split; try discriminate; try congruence. eauto. }
  cbn [set_fs st_fs] in Hj.
  destruct (F !! rd) as [d|] eqn:Hd.
  2:{ exfalso. assert (HS : is_Some (F !! rd)).
      { apply Runs.fs_write_dir_is_Some, Runs.apply_jobs_dir_is_Some, Runs.fs_ensure_dir_is_Some. }
      rewrite Hd in HS. now destruct HS. }
  unfold modify_fs, bind, remove_files, ret in Hj. cbv beta iota zeta in Hj.
  injection Hj as <- <-. cbn [fst snd set_fs st_fs st_calls st_events st_removed].
  rewrite <- !app_assoc. repeat split; try discriminate. eauto.
Qed.

End CombineRun.

(* ------------------------------------------------------------------ *)
(** ** The claims *)

Module Claims.
Import Runs.

Lemma in_task_variants env pv :
  pv ∈ task_variants env -> pv = processVideos_v1 env ∨ pv = processVideos_v2 env.
Proof. unfold task_variants. rewrite !elem_of_cons, elem_of_nil. tauto. Qed.

Lemma nil_or_ne {A} (l : list A) : l = [] ∨ l ≠ [].
Proof. destruct l; [now left | right; discriminate]. Qed.

Lemma run_task_rejected pv u hs bs s :
  (hs = [] ∨ bs = []) -> st_of (run_task pv u hs bs s) = s.
Proof. intros [-> | ->]; [reflexivity|]. unfold st_of, run_task, upload. now rewrite orb_true_r. Qed.

(** Claim C1: for an accepted submission (at least one hook and one body)
    run by either [processVideos] of [index.js], a [done] record saved at
    the end has [total = H * B] and [success <= total]. *)
Theorem C1_done_record env pv u hs bs s url sc t :
  pv ∈ task_variants env -> hs ≠ [] -> bs ≠ [] ->
  getStatus u (st_fs (st_of (run_task pv u hs bs s))) = Some (SDone url sc t) ->
  t = length hs * length bs ∧ sc ≤ t.
Proof.
  intros Hv Hh Hb. unfold st_of. rewrite run_task_accepted by assumption. simpl.
  set (s0 := set_fs _ s).
  destruct (zip_crashes env) eqn:Hz.
  { destruct (task_crash_run env pv u hs bs s0 (in_task_variants env pv Hv) Hz) as (_ & -> & _).
    rewrite FsFacts.getStatus_task_report. unfold s0, set_fs. cbn [st_fs].
    rewrite getStatus_save_fs. discriminate. }
  destruct (in_task_variants env pv Hv) as [-> | ->].
  - destruct (v1_job_run env u hs bs s0 Hz) as (sX & r & -> & _ & _ & Hc).
    rewrite getStatus_save_fs. intros Hr. injection Hr as ->.
    destruct Hc as [(_ & Hr & _) | (_ & _ & _ & _ & [[e He] | Hr] & _)]; try discriminate.
    injection Hr as _ Hsc Ht. subst sc t. split; [reflexivity | apply Loops.count_ok_le].
  - destruct (v2_job_run env u hs bs s0 Hz) as (sX & r & -> & _ & _ & _ & Hc & _).
    rewrite getStatus_save_fs. intros Hr. injection Hr as ->.
    destruct Hc as [[e He] | Hr]; [discriminate|].
    injection Hr as _ Hsc Ht. subst sc t. split; [reflexivity | apply Loops.count_ok_le].
Qed.

Lemma C1_done_record_witness :
  getStatus "u1" (st_fs (st_of (run_task (processVideos_v2 (env_all (PFail None))) "u1" [uf "h.mp4"] [uf "b.mp4"; uf "c.mp4"] init_st)))
    = Some (SDone "/results/u1.zip" 0 2) ∧
  1 * 2 = 2 ∧ 0 ≤ 2.
Proof.
  assert (H : getStatus "u1" (st_fs (st_of (run_task (processVideos_v2 (env_all (PFail None))) "u1" [uf "h.mp4"] [uf "b.mp4"; uf "c.mp4"] init_st)))
              = Some (SDone "/results/u1.zip" 0 2)) by (vm_compute; reflexivity).
  split; [exact H|].
  exact (C1_done_record (env_all (PFail None)) (processVideos_v2 (env_all (PFail None))) "u1"
           [uf "h.mp4"] [uf "b.mp4"; uf "c.mp4"] init_st "/results/u1.zip" 0 2
           (ltac:(unfold task_variants; right; left)) ltac:(discriminate) ltac:(discriminate) H).
Defined.

(** Claim C2: a failing ffmpeg run is caught and counted without aborting
    the batch.  Once the task folder exists, either [processVideos] makes
    all H * B runs, whatever the outcome of each; when the report and the
    archive then succeed, the task ends in [done] whose [success] is the
    number of runs that succeeded, so [0] when every run fails.  The
    [/combine] handler of [part_000] likewise starts every job. *)
Theorem C2_failures_counted env pv ts u hs bs s :
  pv ∈ task_variants env -> hs ≠ [] -> bs ≠ [] -> env_ensure_dir env = true ->
  let n := length (st_calls s) in
  let T := length hs * length bs in
  let url := "/results/" +:+ u +:+ ".zip" in
  st_calls (st_of (run_task pv u hs bs s)) = st_calls s ++ jobs (Path.join [resultsDir; u]) hs bs ∧
  (env_report env = true -> env_zip env = true ->
     getStatus u (st_fs (st_of (run_task pv u hs bs s))) = Some (SDone url (count_ok env n T) T) ∧
     ((∀ k, env_combine env k ≠ POk) ->
        getStatus u (st_fs (st_of (run_task pv u hs bs s))) = Some (SDone url 0 T))) ∧
  st_calls (snd (combine_handler env ts hs bs s)) = st_calls s ++ jobs (Path.join [outputFolder; ts]) hs bs.
Proof.
  intros Hv Hh Hb Ed n T url.
  assert (Hdone : env_report env = true -> env_zip env = true ->
            getStatus u (st_fs (st_of (run_task pv u hs bs s))) = Some (SDone url (count_ok env n T) T)).
  { intros Er Ez. unfold st_of. rewrite run_task_accepted by assumption. simpl.
    set (s0 := set_fs _ s).
    assert (Hz : zip_crashes env = false) by (unfold zip_crashes; now rewrite Ez, andb_false_r).
    destruct (in_task_variants env pv Hv) as [-> | ->].
    - destruct (v1_job_run env u hs bs s0 Hz) as (sX & r & -> & _ & _ & Hc).
      rewrite getStatus_save_fs.
      destruct Hc as [(E & _) | (_ & _ & _ & _ & _ & Hzip)]; [congruence|].
      destruct (Hzip Er Ez) as (d & _ & -> & _). reflexivity.
    - destruct (v2_job_run env u hs bs s0 Hz) as (sX & r & -> & _ & _ & _ & _ & Hzip).
      rewrite getStatus_save_fs.
      destruct (Hzip Ed Er Ez) as (d & _ & -> & _). reflexivity. }
  split; [|split].
  - unfold st_of. rewrite run_task_accepted by assumption. simpl.
    set (s0 := set_fs _ s).
    destruct (zip_crashes env) eqn:Hz.
    { destruct (task_crash_run env pv u hs bs s0 (in_task_variants env pv Hv) Hz) as (_ & _ & _ & Hc & _).
      exact Hc. }
    destruct (in_task_variants env pv Hv) as [-> | ->].
    + destruct (v1_job_run env u hs bs s0 Hz) as (sX & r & _ & _ & _ & Hc).
      destruct Hc as [(E & _) | (_ & _ & Hc & _)]; [congruence | exact Hc].
    + destruct (v2_job_run env u hs bs s0 Hz) as (sX & r & _ & _ & Hc & _).
      rewrite Hc, Ed. reflexivity.
  - intros Er Ez. split; [exact (Hdone Er Ez)|].
    intros Hf. rewrite (Hdone Er Ez), Loops.count_ok_none by exact Hf. reflexivity.
  - exact (proj1 (CombineRun.combine_run env ts hs bs s Hh Hb Ed)).
Qed.

Lemma C2_failures_counted_witness :
  let env := {| env_combine := λ k, if Nat.eqb k 0 then POk else PFail None;
                env_ensure_dir := true; env_report := true; env_zip := true; env_zip_crash := false |} in
  let hs := [uf "h.mp4"] in
  let bs := [uf "b.mp4"; uf "c.mp4"] in
  let url := "/results/" +:+ "u1" +:+ ".zip" in
  getStatus "u1" (st_fs (st_of (run_task (processVideos_v1 env) "u1" hs bs init_st))) = Some (SDone url 1 2) ∧
  (st_calls (st_of (run_task (processVideos_v1 env) "u1" hs bs init_st))
     = st_calls init_st ++ jobs (Path.join [resultsDir; "u1"]) hs bs ∧
   (env_report env = true -> env_zip env = true ->
      getStatus "u1" (st_fs (st_of (run_task (processVideos_v1 env) "u1" hs bs init_st)))
        = Some (SDone url (count_ok env 0 (length hs * length bs)) (length hs * length bs)) ∧
      ((∀ k, env_combine env k ≠ POk) ->
         getStatus "u1" (st_fs (st_of (run_task (processVideos_v1 env) "u1" hs bs init_st)))
           = Some (SDone url 0 (length hs * length bs)))) ∧
   st_calls (snd (combine_handler env "20261018" hs bs init_st))
     = st_calls init_st ++ jobs (Path.join [outputFolder; "20261018"]) hs bs).
Proof.
  intros env hs bs url. split; [vm_compute; reflexivity|].
  exact (C2_failures_counted env (processVideos_v1 env) "20261018" "u1" hs bs init_st
           (ltac:(unfold task_variants; left)) ltac:(discriminate) ltac:(discriminate) eq_refl).
Defined.

(** Claim C10: when the status file of [taskId] exists but is not a
    status JSON document, the status lookup answers 404 [Task not found],
    the answer it gives when there is no status file at all. *)
Theorem C10_unparsable_not_found taskId fs fs' :
  fs_read (status_path taskId) fs = Some CUnparsable ->
  fs_read (status_path taskId) fs' = None ->
  status_handler taskId fs = RJson 404 (BError "Task not found") ∧
  status_handler taskId fs = status_handler taskId fs'.
Proof.
  intros H H'. unfold status_handler, getStatus. rewrite H, H'. split; reflexivity.
Qed.

Lemma C10_unparsable_not_found_witness :
  status_handler "u1" (fs_write (status_path "u1") CUnparsable init_fs) = RJson 404 (BError "Task not found") ∧
  status_handler "u1" (fs_write (status_path "u1") CUnparsable init_fs) = status_handler "u1" init_fs.
Proof.
  apply C10_unparsable_not_found; vm_compute; reflexivity.
Defined.

(** Claim C3 (amended): the code sets no limit on simultaneous ffmpeg
    processes.  A task of [/upload] (either [processVideos]) awaits each
    process before the next, so at most one runs at a time; [/combine] of
    [part_000] starts all H * B processes before any of them ends. *)
Theorem C3_amended env pv ts u hs bs s :
  st_events s = [] ->
  (pv ∈ task_variants env -> peak (st_events (st_of (run_task pv u hs bs s))) ≤ 1) ∧
  (hs ≠ [] -> bs ≠ [] -> env_ensure_dir env = true ->
     length hs * length bs ≤ peak (st_events (snd (combine_handler env ts hs bs s)))).
Proof.
  intros He. split.
  - intros Hv.
    destruct (nil_or_ne hs) as [Hh|Hh]; [rewrite run_task_rejected by (now left); rewrite He; unfold peak; simpl; lia|].
    destruct (nil_or_ne bs) as [Hb|Hb]; [rewrite run_task_rejected by (now right); rewrite He; unfold peak; simpl; lia|].
    unfold st_of. rewrite run_task_accepted by assumption. simpl.
    set (s0 := set_fs _ s).
    assert (He0 : st_events s0 = []) by exact He.
    destruct (zip_crashes env) eqn:Hz.
    { destruct (task_crash_run env pv u hs bs s0 (in_task_variants env pv Hv) Hz) as (_ & _ & _ & _ & -> & _).
      rewrite He0. unfold peak. simpl. apply Peak.peak_from_pairs. lia. }
    destruct (in_task_variants env pv Hv) as [-> | ->].
    + destruct (v1_job_run env u hs bs s0 Hz) as (sX & r & _ & _ & _ & Hc).
      destruct Hc as [(_ & _ & _ & _ & _ & ->) | (_ & _ & _ & -> & _)]; rewrite He0; unfold peak; simpl; [lia|].
      apply Peak.peak_from_pairs. lia.
    + destruct (v2_job_run env u hs bs s0 Hz) as (sX & r & _ & _ & _ & -> & _).
      rewrite He0. unfold peak. simpl. destruct (env_ensure_dir env); [apply Peak.peak_from_pairs|]; simpl; lia.
  - intros Hh Hb Ed.
    destruct (Combine.combine_handler_events env ts hs bs s Hh Hb Ed) as [r ->].
    rewrite He. unfold peak. simpl.
    etransitivity; [|apply Peak.peak_from_app].
    rewrite Peak.peak_from_starts, length_seq; lia.
Qed.

Lemma C3_amended_witness :
  peak (st_events (st_of (run_task (processVideos_v1 (env_all POk)) "u1" [uf "h1.mp4"; uf "h2.mp4"] [uf "b1.mp4"; uf "b2.mp4"] init_st))) ≤ 1 ∧
  length [uf "h1.mp4"; uf "h2.mp4"] * length [uf "b1.mp4"; uf "b2.mp4"]
    ≤ peak (st_events (snd (combine_handler (env_all POk) "20261018" [uf "h1.mp4"; uf "h2.mp4"] [uf "b1.mp4"; uf "b2.mp4"] init_st))).
Proof.
  destruct (C3_amended (env_all POk) (processVideos_v1 (env_all POk)) "20261018" "u1"
              [uf "h1.mp4"; uf "h2.mp4"] [uf "b1.mp4"; uf "b2.mp4"] init_st eq_refl) as [H1 H2].
  split.
  - apply H1. unfold task_variants. left.
  - apply H2; [discriminate | discriminate | reflexivity].
Defined.

(** Counterexample to claim C3: a 2 x 2 batch of [/combine] has four
    ffmpeg processes running at once, more than a limit of 2, say; and
    nothing bounds the count but the 10 x 10 upload limit. *)
Lemma C3_counterexample :
  peak (st_events (snd (combine_handler (env_all POk) "20261018" [uf "h1.mp4"; uf "h2.mp4"] [uf "b1.mp4"; uf "b2.mp4"] init_st))) = 4.
Proof. vm_compute. reflexivity. Qed.

(** Claim C4 (amended): a job's destination is [comb_<hook>_<body>.mp4]
    in the task folder, built from the two names without extension.  When
    no hook name without extension contains [_], two jobs share a
    destination exactly when their hook names without extension agree and
    so do their body names: distinct files with the same name and another
    extension ([a.mp4], [a.mov]) collide. *)
Theorem C4_amended td h1 b1 h2 b2 :
  has_char "_" (Path.parse_name (originalname h1)) = false ->
  has_char "_" (Path.parse_name (originalname h2)) = false ->
  Path.join_from td [output_name h1 b1] = Path.join_from td [output_name h2 b2] <->
  Path.parse_name (originalname h1) = Path.parse_name (originalname h2) ∧
  Path.parse_name (originalname b1) = Path.parse_name (originalname b2).
Proof.
  intros H1 H2. split.
  - rewrite !PathFacts.join_from_plain by apply PathFacts.output_name_plain.
    intros H. apply app_inv_head in H. injection H as H.
    unfold output_name in H. rewrite !PathFacts.str_app_nil in H.
    destruct (StrFacts.app_underscore_inj _ _
                (Path.parse_name (originalname b1) +:+ ".mp4") (Path.parse_name (originalname b2) +:+ ".mp4")
                H1 H2 H) as [Ha Hx].
    split; [exact Ha|]. exact (StrFacts.str_app_inj_r _ _ _ Hx).
  - intros [Ha Hb]. unfold output_name. now rewrite Ha, Hb.
Qed.

Lemma C4_amended_witness :
  Path.join_from ["tmp"; "results"; "u1"] [output_name (uf "a.mp4") (uf "z.mp4")]
    = Path.join_from ["tmp"; "results"; "u1"] [output_name (uf "a.mov") (uf "z.mov")] <->
  Path.parse_name (originalname (uf "a.mp4")) = Path.parse_name (originalname (uf "a.mov")) ∧
  Path.parse_name (originalname (uf "z.mp4")) = Path.parse_name (originalname (uf "z.mov")).
Proof. apply C4_amended; vm_compute; reflexivity. Defined.

(** Counterexample to claim C4: hooks [a.mp4] and [a.mov] with body
    [z.mp4] are two jobs of one task with one destination. *)
Lemma C4_counterexample :
  map c_out (st_calls (st_of (run_task (processVideos_v1 (env_all POk)) "u1" [uf "a.mp4"; uf "a.mov"] [uf "z.mp4"] init_st)))
  = [["tmp"; "results"; "u1"; "comb_a_z.mp4"]; ["tmp"; "results"; "u1"; "comb_a_z.mp4"]].
Proof. vm_compute. reflexivity. Qed.






(** Claim C7 (code bug): the second [processVideos] of [index.js] never
    requests the removal of an uploaded file, whatever its outcome, and the
    first one requests none when creating the task folder fails. *)
Theorem C7_uploads_kept env u hs bs s :
  st_removed (st_of (run_task (processVideos_v2 env) u hs bs s)) = st_removed s ∧
  (env_ensure_dir env = false -> st_removed (st_of (run_task (processVideos_v1 env) u hs bs s)) = st_removed s).
Proof.
  destruct (nil_or_ne hs) as [Hh|Hh].
  { rewrite !run_task_rejected by now left. split; reflexivity. }
  destruct (nil_or_ne bs) as [Hb|Hb].
  { rewrite !run_task_rejected by now right. split; reflexivity. }
  unfold st_of. rewrite !run_task_accepted by assumption. simpl.
  set (s0 := set_fs _ s). split.
  - destruct (zip_crashes env) eqn:Hz.
    + destruct (task_crash_run env (processVideos_v2 env) u hs bs s0 (or_intror eq_refl) Hz) as (_ & _ & -> & _).
      reflexivity.
    + destruct (v2_job_run env u hs bs s0 Hz) as (sX & r & _ & -> & _). reflexivity.
  - intros Ed.
    assert (Hz : zip_crashes env = false) by (unfold zip_crashes; now rewrite Ed).
    destruct (v1_job_run env u hs bs s0 Hz) as (sX & r & _ & _ & _ & Hc).
    destruct Hc as [(_ & _ & _ & -> & _) | (E & _)]; [reflexivity | congruence].
Qed.

Lemma C7_uploads_kept_witness :
  let env := {| env_combine := λ _, POk; env_ensure_dir := false; env_report := true; env_zip := true;
                env_zip_crash := false |} in
  st_removed (st_of (run_task (processVideos_v2 env) "u1" [uf "h.mp4"] [uf "b.mp4"] init_st)) = st_removed init_st ∧
  (env_ensure_dir env = false ->
     st_removed (st_of (run_task (processVideos_v1 env) "u1" [uf "h.mp4"] [uf "b.mp4"] init_st)) = st_removed init_st).
Proof. intros env. exact (C7_uploads_kept env "u1" [uf "h.mp4"] [uf "b.mp4"] init_st). Defined.

Lemma status_path_dotdot (u : string) : status_path ("x/../" +:+ u) = status_path u.
Proof.
  unfold status_path, Path.join.
  rewrite (PathFacts.join_from_cons [] resultsDir [("x/../" +:+ u); "status.json"]),
    (PathFacts.join_from_cons [] resultsDir [u; "status.json"]),
    (PathFacts.join_from_cons _ ("x/../" +:+ u) ["status.json"]), (PathFacts.join_from_cons _ u ["status.json"]).
  reflexivity.
Qed.

(** Claim C9 (code bug): the status lookup joins the identifier into a
    path unchecked, so [x/../u], an identifier never issued ([uuidv4]
    makes no slash), answers with the status of task [u]. *)
Theorem C9_dotdot_alias u fs : status_handler ("x/../" +:+ u) fs = status_handler u fs.
Proof. unfold status_handler, getStatus. now rewrite status_path_dotdot. Qed.

(** Claim C8 (amended): when every ffmpeg run succeeds (and creating the
    task folder, the report and the archive succeed), the [done] record has
    [success = total = H * B]; the archive holds the whole task folder: the
    output files, [report.txt] and also [status.json], which [saveStatus]
    keeps there.  Outputs that share a name count once; with distinct names
    the archive has [total + 2] entries. *)
Theorem C8_amended env pv u hs bs s :
  pv ∈ task_variants env -> hs ≠ [] -> bs ≠ [] -> Path.plain_segment u = true ->
  st_fs s !! Path.join [resultsDir; u] = None ->
  (∀ k, env_combine env k = POk) ->
  env_ensure_dir env = true -> env_report env = true -> env_zip env = true ->
  getStatus u (st_fs (st_of (run_task pv u hs bs s)))
    = Some (SDone ("/results/" +:+ u +:+ ".zip") (length hs * length bs) (length hs * length bs)) ∧
  fs_read (Path.join [resultsDir; u +:+ ".zip"]) (st_fs (st_of (run_task pv u hs bs s)))
    = Some (CZip ({["status.json"]} ∪ {["report.txt"]} ∪ list_to_set (hs ≫= (λ h, map (output_name h) bs)))) ∧
  (NoDup (hs ≫= (λ h, map (output_name h) bs)) ->
     size ({["status.json"]} ∪ {["report.txt"]} ∪ list_to_set (hs ≫= (λ h, map (output_name h) bs)) : gset string)
     = length hs * length bs + 2).
Proof.
  intros Hv Hh Hb Hu Hn Hok Ed Er Ez.
  assert (Hsize : NoDup (hs ≫= (λ h, map (output_name h) bs)) ->
     size ({["status.json"]} ∪ {["report.txt"]} ∪ list_to_set (hs ≫= (λ h, map (output_name h) bs)) : gset string)
     = length hs * length bs + 2).
  { intros Hnd.
    assert (Hd : ∀ x, x ∈ hs ≫= (λ h, map (output_name h) bs) -> x ≠ "status.json" ∧ x ≠ "report.txt")
      by apply Archive.names_special.
    rewrite !size_union, !size_singleton, size_list_to_set, Archive.names_length by (exact Hnd || set_solver).
    lia. }
  unfold st_of. rewrite run_task_accepted by assumption. simpl.
  set (s0 := set_fs _ s).
  assert (Hdir : ∀ d c, fs_write (Path.join_from (Path.join [resultsDir; u]) ["report.txt"]) c
      (apply_jobs env (length (st_calls s0)) (jobs (Path.join [resultsDir; u]) hs bs)
         (fs_ensure_dir (Path.join [resultsDir; u]) (st_fs s0))) !! Path.join [resultsDir; u] = Some d ->
      dom d = {["status.json"]} ∪ {["report.txt"]} ∪ list_to_set (hs ≫= (λ h, map (output_name h) bs))).
  { intros d c. exact (Archive.task_dir_entries env _ u hs bs (st_fs s) c d Hu Hn Hok). }
  assert (Hnc : zip_crashes env = false) by (unfold zip_crashes; now rewrite Ez, andb_false_r).
  destruct (in_task_variants env pv Hv) as [-> | ->].
  - destruct (v1_job_run env u hs bs s0 Hnc) as (sX & r & -> & _ & _ & Hc).
    destruct Hc as [(E & _) | (_ & _ & _ & _ & _ & Hz)]; [congruence|].
    destruct (Hz Er Ez) as (d & Hd & -> & ->).
    rewrite getStatus_save_fs, Archive.zip_read, (Hdir d _ Hd), (Loops.count_ok_all env _ _ Hok) by exact Hu.
    split; [reflexivity|]. split; [reflexivity | exact Hsize].
  - destruct (v2_job_run env u hs bs s0 Hnc) as (sX & r & -> & _ & _ & _ & _ & Hz).
    destruct (Hz Ed Er Ez) as (d & Hd & -> & ->).
    rewrite getStatus_save_fs, Archive.zip_read, (Hdir d _ Hd), (Loops.count_ok_all env _ _ Hok) by exact Hu.
    split; [reflexivity|]. split; [reflexivity | exact Hsize].
Qed.

Lemma C8_amended_witness :
  getStatus "u1" (st_fs (st_of (run_task (processVideos_v1 (env_all POk)) "u1" [uf "h.mp4"] [uf "b.mp4"] init_st)))
    = Some (SDone ("/results/" +:+ "u1" +:+ ".zip") (length [uf "h.mp4"] * length [uf "b.mp4"]) (length [uf "h.mp4"] * length [uf "b.mp4"])) ∧
  fs_read (Path.join [resultsDir; "u1" +:+ ".zip"]) (st_fs (st_of (run_task (processVideos_v1 (env_all POk)) "u1" [uf "h.mp4"] [uf "b.mp4"] init_st)))
    = Some (CZip ({["status.json"]} ∪ {["report.txt"]} ∪ list_to_set ([uf "h.mp4"] ≫= (λ h, map (output_name h) [uf "b.mp4"])))) ∧
  (NoDup ([uf "h.mp4"] ≫= (λ h, map (output_name h) [uf "b.mp4"])) ->
     size ({["status.json"]} ∪ {["report.txt"]} ∪ list_to_set ([uf "h.mp4"] ≫= (λ h, map (output_name h) [uf "b.mp4"])) : gset string)
     = length [uf "h.mp4"] * length [uf "b.mp4"] + 2).
Proof.
  apply (C8_amended (env_all POk) (processVideos_v1 (env_all POk)) "u1" [uf "h.mp4"] [uf "b.mp4"] init_st).
  - unfold task_variants. left.
  - discriminate.
  - discriminate.
  - reflexivity.
  - vm_compute. reflexivity.
  - reflexivity.
  - reflexivity.
  - reflexivity.
  - reflexivity.
Defined.

(** Counterexample to claim C8: a 1 x 1 task whose run succeeds has an
    archive of three entries ([status.json], the output and
    [report.txt]), not [total + 1 = 2]. *)
Lemma C8_counterexample :
  let s := st_of (run_task (processVideos_v1 (env_all POk)) "u1" [uf "h.mp4"] [uf "b.mp4"] init_st) in
  getStatus "u1" (st_fs s) = Some (SDone "/results/u1.zip" 1 1) ∧
  fs_read ["tmp"; "results"; "u1.zip"] (st_fs s) = Some (CZip {["status.json"; "comb_h_b.mp4"; "report.txt"]}) ∧
  size ({["status.json"; "comb_h_b.mp4"; "report.txt"]} : gset string) = 3.
Proof. vm_compute. split; [reflexivity|]. split; reflexivity. Qed.

End Claims.

(* ------------------------------------------------------------------ *)
(** ** How a task of [processVideos] ends *)

Module Outcomes.
Section WithEnv.
Variable env : Env.

(** When creating the task folder, the report or the archiver fails, the
    task of the first [processVideos] ends by saving an error record. *)
Lemma v1_error u hs bs s :
  env_ensure_dir env && env_report env && env_zip env = false -> zip_crashes env = false ->
  ∃ sX e, st_fs (snd (try_catch (processVideos_v1 env u hs bs) (λ e, saveStatus u (SError e)) s))
          = save_fs u (SError e) (st_fs sX).
Proof.
  intros Hf Hnc.
  destruct (try_catch _ _ s) as [res sf] eqn:Hj. simpl.
  unfold processVideos_v1 in Hj.
  unfold try_catch at 1, bind at 1, ensure_dir in Hj.
  destruct (env_ensure_dir env) eqn:Ed.
  2:{ injection Hj as <- <-. exists s, "ENOENT: ensureDir". reflexivity. }
  unfold modify_fs at 1 in Hj.
  set (s1 := set_fs _ s) in Hj.
  destruct (Loops.loop_hooks_run env (Path.join [resultsDir; u]) hs bs 0 s1) as [tr Hl].
  unfold try_finally, try_catch, bind at 1 in Hj. rewrite Hl in Hj.
  unfold finish, bind, write_report in Hj.
  set (s2 := Build_St _ _ _ _ tr) in Hj.
  destruct (env_report env) eqn:Er.
  2:{ unfold throw, saveStatus, remove_files, modify_fs in Hj. cbv beta iota zeta in Hj.
      injection Hj as <- <-. exists s2, "EACCES: report.txt". reflexivity. }
  unfold modify_fs at 1 in Hj. unfold zipDirectory in Hj.
  destruct (env_zip env) eqn:Ez; [exact (False_ind _ (diff_true_false Hf))|].
  destruct (env_zip_crash env) eqn:Ec.
  { unfold zip_crashes in Hnc. rewrite Ed, Er, Ez, Ec in Hnc. discriminate. }
  unfold throw, saveStatus, remove_files, modify_fs in Hj. cbv beta iota zeta in Hj.
  match type of Hj with context [fs_write (Path.join_from ?td ["report.txt"]) ?c (st_fs s2)] =>
    exists (set_fs (fs_write (Path.join_from td ["report.txt"]) c (st_fs s2)) s2), "archiver error" end.
  injection Hj as <- <-. reflexivity.
Qed.

Lemma v2_error u hs bs s :
  env_ensure_dir env && env_report env && env_zip env = false -> zip_crashes env = false ->
  ∃ sX e, st_fs (snd (try_catch (processVideos_v2 env u hs bs) (λ e, saveStatus u (SError e)) s))
          = save_fs u (SError e) (st_fs sX).
Proof.
  intros Hf Hnc.
  destruct (try_catch _ _ s) as [res sf] eqn:Hj. simpl.
  unfold processVideos_v2 in Hj.
  unfold try_catch at 1, bind at 1, ensure_dir in Hj.
  destruct (env_ensure_dir env) eqn:Ed.
  2:{ injection Hj as <- <-. exists s, "ENOENT: ensureDir". reflexivity. }
  unfold modify_fs at 1 in Hj.
  set (s1 := set_fs _ s) in Hj.
  destruct (Loops.loop_hooks_run env (Path.join [resultsDir; u]) hs bs 0 s1) as [tr Hl].
  unfold bind at 1 in Hj. rewrite Hl in Hj.
  unfold try_catch, finish, bind, write_report in Hj.
  set (s2 := Build_St _ _ _ _ tr) in Hj.
  destruct (env_report env) eqn:Er.
  2:{ unfold throw, saveStatus, modify_fs in Hj. cbv beta iota zeta in Hj.
      injection Hj as <- <-. exists s2, "EACCES: report.txt". reflexivity. }
  unfold modify_fs at 1 in Hj. unfold zipDirectory in Hj.
  destruct (env_zip env) eqn:Ez; [exact (False_ind _ (diff_true_false Hf))|].
  destruct (env_zip_crash env) eqn:Ec.
  { unfold zip_crashes in Hnc. rewrite Ed, Er, Ez, Ec in Hnc. discriminate. }
  unfold throw, saveStatus, modify_fs in Hj. cbv beta iota zeta in Hj.
  match type of Hj with context [fs_write (Path.join_from ?td ["report.txt"]) ?c (st_fs s2)] =>
    exists (set_fs (fs_write (Path.join_from td ["report.txt"]) c (st_fs s2)) s2), "archiver error" end.
  injection Hj as <- <-. reflexivity.
Qed.

End WithEnv.

Lemma variant_cases env pv :
  pv ∈ task_variants env -> pv = processVideos_v1 env ∨ pv = processVideos_v2 env.
Proof. unfold task_variants. rewrite !elem_of_cons, elem_of_nil. tauto. Qed.

End Outcomes.

(* ------------------------------------------------------------------ *)
(** ** Uploaded file names *)

Module Names.
Import PathFacts.

Lemma has_slash_char s : Path.has_slash s = has_char "/" s.
Proof. induction s as [|c s IH]; [reflexivity|]. simpl. now rewrite IH. Qed.

Lemma has_char_app c a b : has_char c (a +:+ b) = has_char c a || has_char c b.
Proof. induction a as [|x a IH]; [reflexivity|]. rewrite str_app_cons. simpl. now rewrite IH, orb_assoc. Qed.

Lemma pretty_N_go_no_char c x s :
  (∀ y, Ascii.eqb (pretty_N_char y) c = false) -> has_char c s = false ->
  has_char c (pretty_N_go x s) = false.
Proof.
  intros Hd. revert s. induction (N.lt_wf_0 x) as [x _ IH]; intros s Hs.
  destruct (decide (x = 0)%N) as [->|Hx]; [now rewrite pretty_N_go_0|].
  rewrite pretty_N_go_step by lia. apply IH; [apply N.div_lt; lia|].
  simpl. now rewrite Hd, Hs.
Qed.

(** A number printed in decimal has no [_] and no [/]. *)
Lemma pretty_N_no_char c (x : N) :
  (∀ y, Ascii.eqb (pretty_N_char y) c = false) -> has_char c (pretty x) = false.
Proof.
  intros Hd. unfold pretty, pretty_N. case_decide.
  - simpl. rewrite orb_false_r. exact (Hd 0%N).
  - now apply pretty_N_go_no_char.
Qed.

Lemma pretty_N_char_underscore y : Ascii.eqb (pretty_N_char y) "_" = false.
Proof. unfold pretty_N_char. repeat case_match; reflexivity. Qed.

Lemma pretty_N_char_slash y : Ascii.eqb (pretty_N_char y) "/" = false.
Proof. unfold pretty_N_char. repeat case_match; reflexivity. Qed.

Lemma multer_plain now o :
  Path.has_slash o = false -> Path.plain_segment (multer_filename now o) = true.
Proof.
  intros Ho.
  assert (Hu : has_char "_" (multer_filename now o) = true).
  { unfold multer_filename. rewrite has_char_app. simpl. apply orb_true_r. }
  assert (Hs : Path.has_slash (multer_filename now o) = false).
  { unfold multer_filename. rewrite has_slash_app, has_slash_char, pretty_N_no_char by apply pretty_N_char_slash.
    simpl. exact Ho. }
  unfold Path.plain_segment. rewrite Hs.
  set (x := multer_filename now o) in *.
  destruct (String.eqb_spec x "") as [E|_]; [rewrite E in Hu; discriminate|].
  destruct (String.eqb_spec x ".") as [E|_]; [rewrite E in Hu; discriminate|].
  destruct (String.eqb_spec x "..") as [E|_]; [rewrite E in Hu; discriminate|].
  reflexivity.
Qed.

Lemma stored_path_eq now o :
  Path.has_slash o = false -> stored_path now o = ["tmp"; "uploads"; multer_filename now o].
Proof.
  intros Ho. unfold stored_path, Path.join. rewrite join_from_cons.
  change (Path.join_from [] [uploadsDir]) with ["tmp"; "uploads"].
  apply join_from_plain, multer_plain, Ho.
Qed.

End Names.

(* ------------------------------------------------------------------ *)
(** ** Further properties of the code *)

Module Extras.
Import Runs.

(** X2: right after [/upload] answers 202, the status route answers 200
    with [processing] for the new task. *)
Theorem X2_status_after_accept pv u hs bs s :
  hs ≠ [] -> bs ≠ [] ->
  status_handler u (st_fs (snd (fst (upload pv u hs bs s)))) = RJson 200 (BStatus SProcessing).
Proof.
  intros Hh Hb.
  assert (Hc : Nat.eqb (length hs) 0 || Nat.eqb (length bs) 0 = false).
  { destruct hs, bs; simpl; congruence. }
  unfold upload. rewrite Hc. cbn [fst snd]. unfold status_handler, saveStatus, modify_fs. cbn [snd st_fs set_fs].
  now rewrite getStatus_save_fs.
Qed.

Lemma X2_status_after_accept_witness :
  status_handler "u1" (st_fs (snd (fst (upload (processVideos_v2 (env_all POk)) "u1" [uf "h.mp4"] [uf "b.mp4"] init_st))))
    = RJson 200 (BStatus SProcessing).
Proof. apply X2_status_after_accept; discriminate. Defined.

(** X3: after [saveStatus(u, r)], the status route answers [r] for every
    identifier whose task folder [path.join] resolves to the one of [u],
    and what it answered before for every other identifier. *)
Theorem X3_save_then_status q u r fs :
  status_handler q (save_fs u r fs) =
    if decide (Path.join [resultsDir; q] = Path.join [resultsDir; u]) then RJson 200 (BStatus r)
    else status_handler q fs.
Proof.
  unfold status_handler. destruct (decide _) as [E|E].
  - assert (Hp : status_path q = status_path u) by now rewrite !FsFacts.status_path_snoc, E.
    unfold getStatus at 1. rewrite Hp. fold (getStatus u (save_fs u r fs)).
    now rewrite getStatus_save_fs.
  - now rewrite FsFacts.getStatus_save_other.
Qed.

(** X4: an accepted task of either [processVideos] ends with the status
    [done] (with the number of successful runs and [total = H * B]) when
    creating the task folder, writing the report and zipping succeed; with
    an [error] status when the folder, the report or the archiver fails;
    and keeps [processing] when the output stream of the archive fails,
    since the process ends there. *)
Theorem X4_final_status env pv u hs bs s :
  pv ∈ task_variants env -> hs ≠ [] -> bs ≠ [] ->
  let n := length (st_calls s) in
  let T := length hs * length bs in
  let fs' := st_fs (st_of (run_task pv u hs bs s)) in
  (env_ensure_dir env && env_report env && env_zip env = true ->
     getStatus u fs' = Some (SDone ("/results/" +:+ u +:+ ".zip") (count_ok env n T) T)) ∧
  (env_ensure_dir env && env_report env && env_zip env = false -> zip_crashes env = false ->
     ∃ e, getStatus u fs' = Some (SError e)) ∧
  (zip_crashes env = true -> getStatus u fs' = Some SProcessing).
Proof.
  intros Hv Hh Hb n T fs'. subst fs'. unfold st_of. rewrite run_task_accepted by assumption. cbn [snd].
  set (s0 := set_fs _ s).
  assert (Hn : length (st_calls s0) = n) by reflexivity.
  split; [|split].
  - intros Hok. apply andb_prop in Hok as [Hok Ez]. apply andb_prop in Hok as [Ed Er].
    pose proof (zip_crashes_zip env Ez) as Hnc.
    destruct (Outcomes.variant_cases env pv Hv) as [-> | ->].
    + destruct (v1_job_run env u hs bs s0 Hnc) as (sX & r & -> & _ & _ & Hc).
      rewrite getStatus_save_fs.
      destruct Hc as [(E & _) | (_ & _ & _ & _ & _ & Hz)]; [congruence|].
      destruct (Hz Er Ez) as (d & _ & -> & _). now rewrite Hn.
    + destruct (v2_job_run env u hs bs s0 Hnc) as (sX & r & -> & _ & _ & _ & _ & Hz).
      rewrite getStatus_save_fs.
      destruct (Hz Ed Er Ez) as (d & _ & -> & _). now rewrite Hn.
  - intros Hf Hnc. destruct (Outcomes.variant_cases env pv Hv) as [-> | ->].
    + destruct (Outcomes.v1_error env u hs bs s0 Hf Hnc) as (sX & e & ->).
      exists e. apply getStatus_save_fs.
    + destruct (Outcomes.v2_error env u hs bs s0 Hf Hnc) as (sX & e & ->).
      exists e. apply getStatus_save_fs.
  - intros Hz.
    destruct (task_crash_run env pv u hs bs s0 (Outcomes.variant_cases env pv Hv) Hz) as (_ & -> & _).
    rewrite FsFacts.getStatus_task_report. unfold s0, set_fs. cbn [st_fs].
    apply getStatus_save_fs.
Qed.

Lemma X4_final_status_witness :
  let env := {| env_combine := λ _, POk; env_ensure_dir := true; env_report := true; env_zip := false;
                env_zip_crash := true |} in
  let fs' := st_fs (st_of (run_task (processVideos_v1 env) "u1" [uf "h.mp4"] [uf "b.mp4"] init_st)) in
  (env_ensure_dir env && env_report env && env_zip env = true ->
     getStatus "u1" fs' = Some (SDone ("/results/" +:+ "u1" +:+ ".zip") (count_ok env 0 (1 * 1)) (1 * 1))) ∧
  (env_ensure_dir env && env_report env && env_zip env = false -> zip_crashes env = false ->
     ∃ e, getStatus "u1" fs' = Some (SError e)) ∧
  (zip_crashes env = true -> getStatus "u1" fs' = Some SProcessing).
Proof.
  intros env fs'.
  exact (X4_final_status env (processVideos_v1 env) "u1" [uf "h.mp4"] [uf "b.mp4"] init_st
           (ltac:(unfold task_variants; left)) ltac:(discriminate) ltac:(discriminate)).
Defined.

(** X5: with the first [processVideos], a client polling the status of
    an accepted task sees [processing] in every file-system state from the
    202 answer up to the last write.  That last write saves the final
    [done] or [error] status, except when the output stream of the archive
    fails: the process then ends after the report, and the status stays
    [processing]. *)
Theorem X5_v1_polling env u hs bs s :
  st_trace s = [] -> Path.plain_segment u = true -> hs ≠ [] -> bs ≠ [] ->
  let s' := st_of (run_task (processVideos_v1 env) u hs bs s) in
  ∃ mids, st_trace s' = mids ++ [st_fs s'] ∧
    Forall (λ fs, getStatus u fs = Some SProcessing) mids ∧
    ((∃ url c t, getStatus u (st_fs s') = Some (SDone url c t)) ∨
     (∃ e, getStatus u (st_fs s') = Some (SError e)) ∨
     (zip_crashes env = true ∧ getStatus u (st_fs s') = Some SProcessing)).
Proof.
  intros Ht Hu Hh Hb s'. subst s'. unfold st_of. rewrite run_task_accepted by assumption. cbn [snd].
  set (s0 := set_fs _ s).
  assert (H0 : fs_inv (λ fs, getStatus u fs = Some SProcessing) s0).
  { split; [apply getStatus_save_fs|]. unfold s0, set_fs. cbn [st_trace]. rewrite Ht.
    constructor; [apply getStatus_save_fs | constructor]. }
  pose proof (FsFacts.nonsave_status u hs bs (Some SProcessing) Hu) as Hns.
  destruct (zip_crashes env) eqn:Hz.
  - destruct (task_crash_run env (processVideos_v1 env) u hs bs s0 (or_introl eq_refl) Hz)
      as (_ & _ & _ & _ & _ & [tr Htr] & Hinv).
    destruct (Hinv _ Hns H0) as [Hlast Hall].
    exists tr. split; [exact Htr|]. rewrite Htr in Hall.
    apply Forall_app in Hall as [Hall _]. split; [exact Hall|]. right; right. split; [reflexivity | exact Hlast].
  - destruct (v1_job_run env u hs bs s0 Hz) as (sX & r & Hfs & Htr & Hinv & Hc).
    exists (st_trace sX). split; [exact Htr|]. split.
    + exact (proj2 (Hinv _ Hns H0)).
    + rewrite Hfs, getStatus_save_fs.
      destruct Hc as [(_ & -> & _) | (_ & _ & _ & _ & [[e ->] | ->] & _)]; eauto.
Qed.

Lemma X5_v1_polling_witness :
  let env := {| env_combine := λ _, POk; env_ensure_dir := true; env_report := true; env_zip := false;
                env_zip_crash := true |} in
  let s' := st_of (run_task (processVideos_v1 env) "u1" [uf "h.mp4"] [uf "b.mp4"] init_st) in
  ∃ mids, st_trace s' = mids ++ [st_fs s'] ∧
    Forall (λ fs, getStatus "u1" fs = Some SProcessing) mids ∧
    ((∃ url c t, getStatus "u1" (st_fs s') = Some (SDone url c t)) ∨
     (∃ e, getStatus "u1" (st_fs s') = Some (SError e)) ∨
     (zip_crashes env = true ∧ getStatus "u1" (st_fs s') = Some SProcessing)).
Proof.
  intros env.
  exact (X5_v1_polling env "u1" [uf "h.mp4"] [uf "b.mp4"] init_st
           eq_refl eq_refl ltac:(discriminate) ltac:(discriminate)).
Defined.

(** X6: once the task folder exists, the first [processVideos] requests
    the removal of every uploaded hook and body, once each, whether the
    runs, the report or the archiver fail or not; when the output stream
    of the archive fails, the process ends before the [finally] block and
    no removal is requested. *)
Theorem X6_v1_removes_uploads env u hs bs s :
  hs ≠ [] -> bs ≠ [] -> env_ensure_dir env = true ->
  st_removed (st_of (run_task (processVideos_v1 env) u hs bs s))
    = st_removed s ++ (if zip_crashes env then [] else map upath (hs ++ bs)).
Proof.
  intros Hh Hb Ed. unfold st_of. rewrite run_task_accepted by assumption. cbn [snd].
  set (s0 := set_fs _ s).
  destruct (zip_crashes env) eqn:Hz.
  - destruct (task_crash_run env (processVideos_v1 env) u hs bs s0 (or_introl eq_refl) Hz) as (_ & _ & -> & _).
    symmetry. apply app_nil_r.
  - destruct (v1_job_run env u hs bs s0 Hz) as (sX & r & _ & _ & _ & Hc).
    destruct Hc as [(E & _) | (_ & -> & _)]; [congruence | reflexivity].
Qed.

Lemma X6_v1_removes_uploads_witness :
  let env := {| env_combine := λ _, PFail None; env_ensure_dir := true; env_report := false; env_zip := true;
                env_zip_crash := false |} in
  st_removed (st_of (run_task (processVideos_v1 env) "u1" [uf "h.mp4"] [uf "b.mp4"] init_st))
    = st_removed init_st ++ (if zip_crashes env then [] else map upath ([uf "h.mp4"] ++ [uf "b.mp4"])).
Proof. intros env. apply X6_v1_removes_uploads; [discriminate | discriminate | reflexivity]. Defined.

(** X7: once the task folder exists, an accepted task of either
    [processVideos] runs ffmpeg once for every (hook, body) pair, hooks in
    the outer loop, and each run writes [comb_..._....mp4] directly in the
    task folder; if the folder cannot be created no ffmpeg runs. *)
Theorem X7_task_calls env pv u hs bs s :
  pv ∈ task_variants env -> hs ≠ [] -> bs ≠ [] ->
  let td := Path.join [resultsDir; u] in
  st_calls (st_of (run_task pv u hs bs s))
    = st_calls s ++ (if env_ensure_dir env then jobs td hs bs else []) ∧
  ∀ c, c ∈ jobs td hs bs -> ∃ h b, h ∈ hs ∧ b ∈ bs ∧
    c = {| c_hook := upath h; c_body := upath b; c_out := td ++ [output_name h b] |}.
Proof.
  intros Hv Hh Hb td. split.
  - unfold st_of. rewrite run_task_accepted by assumption. cbn [snd].
    set (s0 := set_fs _ s).
    destruct (zip_crashes env) eqn:Hz.
    { destruct (task_crash_run env pv u hs bs s0 (Outcomes.variant_cases env pv Hv) Hz) as (_ & _ & _ & -> & _).
      now rewrite (zip_crashes_ensure env Hz). }
    destruct (Outcomes.variant_cases env pv Hv) as [-> | ->].
    + destruct (v1_job_run env u hs bs s0 Hz) as (sX & r & _ & _ & _ & Hc).
      destruct Hc as [(-> & _ & _ & _ & -> & _) | (-> & _ & -> & _)]; [apply eq_sym, app_nil_r | reflexivity].
    + destruct (v2_job_run env u hs bs s0 Hz) as (sX & r & _ & _ & -> & _). reflexivity.
  - intros c Hc. unfold jobs in Hc.
    apply list_elem_of_bind in Hc as (h & Hc & Hh').
    apply list_elem_of_In, in_map_iff in Hc as (b & <- & Hb').
    exists h, b. split; [exact Hh'|]. split; [now apply list_elem_of_In|].
    now rewrite PathFacts.join_from_plain by apply PathFacts.output_name_plain.
Qed.

Lemma X7_task_calls_witness :
  let td := Path.join [resultsDir; "u1"] in
  st_calls (st_of (run_task (processVideos_v2 (env_all POk)) "u1" [uf "h.mp4"] [uf "b.mp4"] init_st))
    = st_calls init_st ++ (if env_ensure_dir (env_all POk) then jobs td [uf "h.mp4"] [uf "b.mp4"] else []) ∧
  ∀ c, c ∈ jobs td [uf "h.mp4"] [uf "b.mp4"] -> ∃ h b, h ∈ [uf "h.mp4"] ∧ b ∈ [uf "b.mp4"] ∧
    c = {| c_hook := upath h; c_body := upath b; c_out := td ++ [output_name h b] |}.
Proof.
  exact (X7_task_calls (env_all POk) (processVideos_v2 (env_all POk)) "u1" [uf "h.mp4"] [uf "b.mp4"] init_st
           (ltac:(unfold task_variants; right; left)) ltac:(discriminate) ltac:(discriminate)).
Defined.

(** X8: when a task of either [processVideos] ends in [done], the
    task folder's [report.txt] holds the same counts as the [done] record:
    [total = H * B] combinations, the successful ones, and the rest as
    failures. *)
Theorem X8_report_matches env pv u hs bs s :
  pv ∈ task_variants env -> hs ≠ [] -> bs ≠ [] -> Path.plain_segment u = true ->
  env_ensure_dir env = true -> env_report env = true -> env_zip env = true ->
  let n := length (st_calls s) in
  let T := length hs * length bs in
  let c := count_ok env n T in
  fs_read (Path.join [resultsDir; u; "report.txt"]) (st_fs (st_of (run_task pv u hs bs s)))
    = Some (CReport T c (T - c)) ∧
  getStatus u (st_fs (st_of (run_task pv u hs bs s))) = Some (SDone ("/results/" +:+ u +:+ ".zip") c T).
Proof.
  intros Hv Hh Hb Hu Ed Er Ez n T c.
  unfold st_of. rewrite run_task_accepted by assumption. cbn [snd].
  set (s0 := set_fs _ s).
  assert (Hn : length (st_calls s0) = n) by reflexivity.
  assert (Hrd : ∀ r z F, fs_read (Path.join [resultsDir; u; "report.txt"])
      (save_fs u r (fs_write (Path.join [resultsDir; u +:+ ".zip"]) z F))
      = fs_read (Path.join_from (Path.join [resultsDir; u]) ["report.txt"]) F).
  { intros r z F. rewrite PathFacts.results_file_join by (exact Hu || reflexivity).
    rewrite (PathFacts.results_dir_join u Hu), PathFacts.join_from_plain by reflexivity.
    unfold save_fs. rewrite FsFacts.fs_read_write_ne, FsFacts.fs_read_ensure.
    - rewrite FsFacts.fs_read_write_ne; [reflexivity|].
      rewrite PathFacts.results_dir_join by (now apply PathFacts.plain_app_zip). discriminate.
    - rewrite Archive.status_path_plain by exact Hu. discriminate. }
  pose proof (zip_crashes_zip env Ez) as Hnc.
  destruct (Outcomes.variant_cases env pv Hv) as [-> | ->].
  - destruct (v1_job_run env u hs bs s0 Hnc) as (sX & r & -> & _ & _ & Hcase).
    destruct Hcase as [(E & _) | (_ & _ & _ & _ & _ & Hz)]; [congruence|].
    destruct (Hz Er Ez) as (d & _ & -> & ->).
    rewrite Hrd, getStatus_save_fs, FsFacts.fs_read_write_eq, Hn. split; reflexivity.
  - destruct (v2_job_run env u hs bs s0 Hnc) as (sX & r & -> & _ & _ & _ & _ & Hz).
    destruct (Hz Ed Er Ez) as (d & _ & -> & ->).
    rewrite Hrd, getStatus_save_fs, FsFacts.fs_read_write_eq, Hn. split; reflexivity.
Qed.

Lemma X8_report_matches_witness :
  fs_read (Path.join [resultsDir; "u1"; "report.txt"])
    (st_fs (st_of (run_task (processVideos_v1 (env_all POk)) "u1" [uf "h.mp4"] [uf "b.mp4"] init_st)))
    = Some (CReport (1 * 1) (count_ok (env_all POk) 0 (1 * 1)) (1 * 1 - count_ok (env_all POk) 0 (1 * 1))) ∧
  getStatus "u1" (st_fs (st_of (run_task (processVideos_v1 (env_all POk)) "u1" [uf "h.mp4"] [uf "b.mp4"] init_st)))
    = Some (SDone ("/results/" +:+ "u1" +:+ ".zip") (count_ok (env_all POk) 0 (1 * 1)) (1 * 1)).
Proof.
  exact (X8_report_matches (env_all POk) (processVideos_v1 (env_all POk)) "u1" [uf "h.mp4"] [uf "b.mp4"] init_st
           (ltac:(unfold task_variants; left)) ltac:(discriminate) ltac:(discriminate)
           eq_refl eq_refl eq_refl eq_refl).
Defined.

(** X10: multer stores two uploads whose original names have no [/] at
    the same path only when they arrive in the same millisecond with the
    same original name. *)
Theorem X10_stored_path_inj now1 now2 o1 o2 :
  Path.has_slash o1 = false -> Path.has_slash o2 = false ->
  stored_path now1 o1 = stored_path now2 o2 -> now1 = now2 ∧ o1 = o2.
Proof.
  intros H1 H2 E. rewrite !Names.stored_path_eq in E by assumption.
  injection E as E. unfold multer_filename in E.
  rewrite !PathFacts.str_app_cons, !PathFacts.str_app_nil in E.
  destruct (StrFacts.app_underscore_inj _ _ _ _
              (Names.pretty_N_no_char "_" now1 Names.pretty_N_char_underscore)
              (Names.pretty_N_no_char "_" now2 Names.pretty_N_char_underscore) E) as [Ep Eo].
  split; [exact (pretty_N_inj _ _ Ep) | exact Eo].
Qed.

Lemma X10_stored_path_inj_witness :
  stored_path 1760745600000%N "a.mp4" = stored_path 1760745600000%N "a.mp4" ∧
  (1760745600000%N = 1760745600000%N ∧ "a.mp4" = "a.mp4").
Proof.
  split; [reflexivity|].
  exact (X10_stored_path_inj 1760745600000%N 1760745600000%N "a.mp4" "a.mp4" eq_refl eq_refl eq_refl).
Defined.

(** X12: a [/combine] batch whose run folder, report and archive
    succeed answers 200 with the archive path, after every ffmpeg process
    it started (one per pair) has ended; the removal of every upload is
    requested. *)
Theorem X12_combine_success env ts hs bs s :
  hs ≠ [] -> bs ≠ [] -> env_ensure_dir env = true -> env_report env = true -> env_zip env = true ->
  let n := length (st_calls s) in
  let T := length hs * length bs in
  let res := combine_handler env ts hs bs s in
  fst res = inr (RJson 200 (BCombined "Videos processed!" (Path.join [outputFolder; "videos_" +:+ ts +:+ ".zip"]))) ∧
  st_calls (snd res) = st_calls s ++ jobs (Path.join [outputFolder; ts]) hs bs ∧
  st_events (snd res) = st_events s ++ map EStart (seq n T) ++ map EEnd (seq n T) ∧
  st_removed (snd res) = st_removed s ++ map upath (hs ++ bs).
Proof.
  intros Hh Hb Ed Er Ez n T res.
  destruct (CombineRun.combine_run env ts hs bs s Hh Hb Ed) as (Hc & He & Hok & _ & _).
  destruct (Hok Er Ez) as (Hr & Hrm & _).
  split; [exact Hr|]. split; [exact Hc|]. split; [exact He | exact Hrm].
Qed.

Lemma X12_combine_success_witness :
  let res := combine_handler (env_all (PFail None)) "20261018" [uf "h.mp4"] [uf "b.mp4"] init_st in
  fst res = inr (RJson 200 (BCombined "Videos processed!" (Path.join [outputFolder; "videos_" +:+ "20261018" +:+ ".zip"]))) ∧
  st_calls (snd res) = st_calls init_st ++ jobs (Path.join [outputFolder; "20261018"]) [uf "h.mp4"] [uf "b.mp4"] ∧
  st_events (snd res) = st_events init_st ++ map EStart (seq 0 (1 * 1)) ++ map EEnd (seq 0 (1 * 1)) ∧
  st_removed (snd res) = st_removed init_st ++ map upath ([uf "h.mp4"] ++ [uf "b.mp4"]).
Proof.
  exact (X12_combine_success (env_all (PFail None)) "20261018" [uf "h.mp4"] [uf "b.mp4"] init_st
           ltac:(discriminate) ltac:(discriminate) eq_refl eq_refl eq_refl).
Defined.

(** X13: when the run folder, the report or the archive of a [/combine]
    batch fails, the removal of no upload is requested.  The answer is 500
    with the error, except when the output stream of the archive fails:
    the process then ends and no answer is sent.  When the run folder
    fails, no ffmpeg runs and nothing changes. *)
Theorem X13_combine_failure env ts hs bs s :
  hs ≠ [] -> bs ≠ [] -> env_ensure_dir env && env_report env && env_zip env = false ->
  let res := combine_handler env ts hs bs s in
  st_removed (snd res) = st_removed s ∧
  (zip_crashes env = false -> ∃ e, fst res = inr (RJson 500 (BInternal "Internal error" e))) ∧
  (zip_crashes env = true -> fst res = inl Crash) ∧
  (env_ensure_dir env = false -> snd res = s).
Proof.
  intros Hh Hb Hf res. subst res.
  destruct (env_ensure_dir env) eqn:Ed.
  - destruct (CombineRun.combine_run env ts hs bs s Hh Hb Ed) as (_ & _ & _ & _ & Hko).
    destruct (Hko Hf) as (Hr & Hcr & Hnc). split; [exact Hr|]. split; [exact Hnc|].
    split; [exact Hcr | discriminate].
  - assert (Hc : Nat.eqb (length hs) 0 || Nat.eqb (length bs) 0 = false).
    { destruct hs, bs; simpl; congruence. }
    assert (Hz : zip_crashes env = false) by (unfold zip_crashes; now rewrite Ed).
    unfold combine_handler. rewrite Hc. unfold try_catch, bind at 1, ensure_dir. rewrite Ed.
    cbn. rewrite Hz. split; [reflexivity|]. split; [eauto|]. split; [discriminate | reflexivity].
Qed.

Lemma X13_combine_failure_witness :
  let env := {| env_combine := λ _, POk; env_ensure_dir := true; env_report := true; env_zip := false;
                env_zip_crash := true |} in
  let res := combine_handler env "20261018" [uf "h.mp4"] [uf "b.mp4"] init_st in
  st_removed (snd res) = st_removed init_st ∧
  (zip_crashes env = false -> ∃ e, fst res = inr (RJson 500 (BInternal "Internal error" e))) ∧
  (zip_crashes env = true -> fst res = inl Crash) ∧
  (env_ensure_dir env = false -> snd res = init_st).
Proof.
  intros env.
  exact (X13_combine_failure env "20261018" [uf "h.mp4"] [uf "b.mp4"] init_st
           ltac:(discriminate) ltac:(discriminate) eq_refl).
Defined.

End Extras.
